(** * import_blueprints.py: a shallow embedding and its properties

    The script reads every [*.json] file of a directory, optionally binds
    each blueprint to a project, injects seven deployment variables into
    the [EraServerDeployment] blueprint, strips the export-only keys and
    posts the document to Prism Central.

    Python values are modelled by the type [json], Python dictionaries by
    stdpp's [gmap], exceptions by the type [exn], and the observable
    effects of a run (lines printed, requests posted) by a trace.

    What the model leaves out: the text of a file beyond what [json.loads]
    makes of it; the order of the keys of a dictionary; letters outside
    ASCII in [str.lower]; failures of [argparse], [open] and [glob]; and
    the module [apiclient], whose answers are an input of the run.
    [set_options] assigns a constant the script never reads. *)

From stdpp Require Import gmap strings list fin_maps.
From Stdlib Require Import ZArith Ascii String.

Set Warnings "-register-all".
Open Scope string_scope.

(* ===================================================================== *)
(** ** Python values and exceptions *)
(* ===================================================================== *)

(** What [json.loads] builds: [None], [bool], [int], [float], [str],
    [list] and [dict] with [str] keys.  A float is carried as its literal;
    the script performs no arithmetic on document values. *)
Inductive json :=
| JNull
| JBool (b : bool)
| JInt (n : Z)
| JFloat (literal : string)
| JStr (s : string)
| JArr (items : list json)
| JObj (fields : gmap string json).

(** The text held in the script's [raw_json] variable, up to what
    [json.loads] makes of it: text that does not parse, or text that parses
    to [doc].  [json.dumps doc] is [Dumped doc], so the model identifies two
    texts with the same parse (key order and white space are not kept). *)
Inductive raw_json :=
| Unparsable (text : string)
| Dumped (doc : json).

Inductive exn :=
| JSONDecodeError
| KeyError
| IndexError
| TypeError
| AttributeError
| UnboundLocalError
| SystemExit
| Exception (msg : string).

#[global] Instance exn_eq_dec : EqDecision exn.
Proof. solve_decision. Defined.

Inductive result (A : Type) :=
| Ok (a : A)
| Raise (e : exn).
Arguments Ok {A} a.
Arguments Raise {A} e.

#[global] Instance result_ret : MRet result := λ A a, Ok a.
#[global] Instance result_bind : MBind result := λ A B k r,
  match r with
  | Ok a => k a
  | Raise e => Raise e
  end.
#[global] Instance result_fmap : FMap result := λ A B f r,
  match r with
  | Ok a => Ok (f a)
  | Raise e => Raise e
  end.

(** [json.loads] and [json.dumps]. *)
Definition loads (raw : raw_json) : result json :=
  match raw with
  | Unparsable _ => Raise JSONDecodeError
  | Dumped doc => Ok doc
  end.

Definition dumps (doc : json) : raw_json := Dumped doc.

(** [o[k]] for a [str] key. *)
Definition getitem (o : json) (k : string) : result json :=
  match o with
  | JObj m => match m !! k with
              | Some v => Ok v
              | None => Raise KeyError
              end
  | _ => Raise TypeError
  end.

(** [o[0]].  A dictionary loaded from JSON has no integer key; the first
    element of a [str] is again a [str]. *)
Definition getitem0 (o : json) : result json :=
  match o with
  | JArr (x :: _) => Ok x
  | JArr [] => Raise IndexError
  | JStr (String c _) => Ok (JStr (String c ""))
  | JStr "" => Raise IndexError
  | JObj _ => Raise KeyError
  | _ => Raise TypeError
  end.

(** [o[k] = v] for a [str] key. *)
Definition setitem (o : json) (k : string) (v : json) : result json :=
  match o with
  | JObj m => Ok (JObj (<[k := v]> m))
  | _ => Raise TypeError
  end.

(** [v == s] for a [str] s. *)
Definition eq_str (v : json) (s : string) : bool :=
  match v with
  | JStr t => bool_decide (t = s)
  | _ => false
  end.

Fixpoint is_substring (s t : string) {struct t} : bool :=
  match t with
  | "" => String.prefix s ""
  | String _ t' => String.prefix s t || is_substring s t'
  end.

(** [s in o] for a [str] s: key of a dictionary, element of a list,
    substring of a string. *)
Definition contains (s : string) (o : json) : result bool :=
  match o with
  | JObj m => Ok (bool_decide (is_Some (m !! s)))
  | JArr l => Ok (existsb (λ x, eq_str x s) l)
  | JStr t => Ok (is_substring s t)
  | _ => Raise TypeError
  end.

(** [o.pop(s)], the popped value dropped. *)
Definition pop (s : string) (o : json) : result json :=
  match o with
  | JObj m => match m !! s with
              | Some _ => Ok (JObj (delete s m))
              | None => Raise KeyError
              end
  | JArr _ => Raise TypeError
  | _ => Raise AttributeError
  end.

Fixpoint chars (s : string) : list json :=
  match s with
  | "" => []
  | String c s' => JStr (String c "") :: chars s'
  end.

(** The items a [for] loop draws from [o].  A dictionary yields its keys;
    their order is not kept by [gmap], and nothing below depends on it. *)
Definition iter (o : json) : result (list json) :=
  match o with
  | JArr l => Ok l
  | JObj m => Ok (JStr <$> (map_to_list m).*1)
  | JStr s => Ok (chars s)
  | _ => Raise TypeError
  end.

Definition lower_ascii (c : ascii) : ascii :=
  let n := nat_of_ascii c in
  if (65 <=? n)%nat && (n <=? 90)%nat then ascii_of_nat (n + 32) else c.

Fixpoint lower_string (s : string) : string :=
  match s with
  | "" => ""
  | String c s' => String (lower_ascii c) (lower_string s')
  end.

(** [o.lower()], on ASCII letters. *)
Definition lower (o : json) : result string :=
  match o with
  | JStr s => Ok (lower_string s)
  | _ => Raise AttributeError
  end.

(** [a + b] where the script has a [str] on one side at least. *)
Definition concat (a b : json) : result string :=
  match a, b with
  | JStr s, JStr t => Ok (s ++ t)
  | _, _ => Raise TypeError
  end.

(** [d[k]] on the substitution table. *)
Definition table_get (d : gmap string string) (k : string) : result string :=
  match d !! k with
  | Some v => Ok v
  | None => Raise KeyError
  end.

(** Reading a local variable that may not have been assigned. *)
Definition local {A} (x : option A) : result A :=
  match x with
  | Some a => Ok a
  | None => Raise UnboundLocalError
  end.

(* ===================================================================== *)
(** ** get_options (lines 40-109) *)
(* ===================================================================== *)

(** The namespace [argparse] returns: an option that was not given is
    [None]. *)
Record args := {
  arg_pc_ip : string;
  arg_username : option string;
  arg_password : option string;
  arg_directory : option string;
  arg_project : option string;
  arg_pe_vip : option string;
  arg_ctr_uuid : option string;
  arg_ctr_name : option string;
  arg_clstr_name : option string;
  arg_era_id : option string;
  arg_network_name : option string;
  arg_network_vlan : option string
}.

(** The globals [get_options] assigns. *)
Record options := {
  cluster_ip : string;
  username : string;
  password : string;
  directory : string;
  project : string;
  dict_variables : gmap string string
}.

(** [if a: x = a else: x = d]; [None] and the empty string are false. *)
Definition or_else (a : option string) (d : string) : string :=
  match a with
  | Some (String c s) => String c s
  | _ => d
  end.

(** [if a: d[k] = a]. *)
Definition set_if (k : string) (a : option string)
    (d : gmap string string) : gmap string string :=
  match a with
  | Some (String c s) => <[k := String c s]> d
  | _ => d
  end.

(** Line 86. *)
Definition default_variables : gmap string string :=
  <["network_vlan" := "none"]> (<["network_name" := "none"]>
  (<["era_id" := "none"]> (<["ctr_name" := "none"]>
  (<["clstr_name" := "none"]> (<["ctr_uuid" := "none"]>
  (<["pe_vip" := "none"]> ∅)))))).

(** [typed_username] and [typed_password] are what the user answers to the
    prompts of lines 69 and 74. *)
Definition get_options (a : args) (typed_username typed_password : string)
    : options :=
  {| username := or_else (arg_username a) typed_username;
     password := or_else (arg_password a) typed_password;
     directory := or_else (arg_directory a) ".";
     project := or_else (arg_project a) "none";
     dict_variables :=
       set_if "network_vlan" (arg_network_vlan a)
       (set_if "network_name" (arg_network_name a)
       (set_if "era_id" (arg_era_id a)
       (set_if "ctr_name" (arg_ctr_name a)
       (set_if "clstr_name" (arg_clstr_name a)
       (set_if "ctr_uuid" (arg_ctr_uuid a)
       (set_if "pe_vip" (arg_pe_vip a) default_variables))))));
     cluster_ip := arg_pc_ip a |}.

(* ===================================================================== *)
(** ** The per-file transformation (lines 168-194) *)
(* ===================================================================== *)

(** [f] run on the object [o[k]], which [o] goes on holding. *)
Definition at_key (k : string) (f : json → result json) (o : json)
    : result json :=
  v ← getitem o k; v' ← f v; setitem o k v'.

(** Lines 170-172: three assignments through [parsed["metadata"]]. *)
Definition bind_project (project_uuid : option json) (parsed : json)
    : result json :=
  parsed ← at_key "metadata"
             (λ md, setitem md "project_reference" (JObj ∅)) parsed;
  parsed ← at_key "metadata" (at_key "project_reference"
             (λ pr, setitem pr "kind" (JStr "project"))) parsed;
  uuid ← local project_uuid;
  at_key "metadata" (at_key "project_reference"
             (λ pr, setitem pr "uuid" uuid)) parsed.

(** Lines 178-181, the body of the loop over the variable list. *)
Definition set_variable (dict_variables : gmap string string)
    (var_dict : json) : result json :=
  name ← getitem var_dict "name";
  variable_name ← lower name;
  v ← table_get dict_variables variable_name;
  if bool_decide (v ≠ "none") then setitem var_dict "value" (JStr v)
  else Ok var_dict.

(** Line 177.  The entries of a list are the dictionaries held by the
    document, so the assignment of line 181 changes the document; the
    items drawn from a dictionary or a string are fresh strings. *)
Definition set_variables (dict_variables : gmap string string)
    (variable_list_of_dictionaries : json) : result json :=
  match variable_list_of_dictionaries with
  | JArr l => JArr <$> mapM (set_variable dict_variables) l
  | other =>
      items ← iter other;
      _ ← mapM (set_variable dict_variables) items;
      Ok other
  end.

(** [f] run on the object [o[0]]. *)
Definition at_first (f : json → result json) (o : json) : result json :=
  v ← getitem0 o;
  v' ← f v;
  match o with
  | JArr (_ :: rest) => Ok (JArr (v' :: rest))
  | _ => Ok o
  end.

(** Lines 176-181: the variable list is reached through
    [parsed["spec"]["resources"]["service_definition_list"][0]["variable_list"]]
    and changed in place. *)
Definition inject_variables (dict_variables : gmap string string)
    (parsed : json) : result json :=
  at_key "spec" (at_key "resources" (at_key "service_definition_list"
    (at_first (at_key "variable_list" (set_variables dict_variables)))))
    parsed.

(** Lines 169-184, run when [project != 'none']. *)
Definition add_project (project_uuid : option json)
    (dict_variables : gmap string string) (raw : raw_json) : result raw_json :=
  parsed ← loads raw;
  parsed ← bind_project project_uuid parsed;
  metadata ← getitem parsed "metadata";
  name ← getitem metadata "name";
  era ← contains "EraServerDeployment" name;
  parsed ← (if era : bool then inject_variables dict_variables parsed
            else Ok parsed);
  Ok (dumps parsed).

(** [if k in o: o.pop(k)]. *)
Definition pop_if_present (k : string) (o : json) : result json :=
  present ← contains k o;
  if present : bool then pop k o else Ok o.

(** Lines 187-194. *)
Definition remove_export_keys (raw : raw_json) : result raw_json :=
  pre_process ← loads raw;
  pre_process ← pop_if_present "status" pre_process;
  pre_process ← pop_if_present "product_version" pre_process;
  Ok (dumps pre_process).

(** Lines 168-194: the content of a file turned into the upload body. *)
Definition transform (project : string) (project_uuid : option json)
    (dict_variables : gmap string string) (raw : raw_json) : result raw_json :=
  raw ← (if bool_decide (project ≠ "none")
         then add_project project_uuid dict_variables raw
         else Ok raw);
  remove_export_keys raw.

(* ===================================================================== *)
(** ** The run (lines 111-236) *)
(* ===================================================================== *)

(** The arguments of [apiclient.ApiClient], in call order. *)
Record request := {
  verb : string;
  host : string;
  api : string;
  body : raw_json;
  user : string;
  pass : string
}.

(** What the script does not decide: the directory listing, the content of
    the files, the answers of Prism Central (a parsed body, or the
    exception [get_info] raises) and the seconds [mktime] measures. *)
Record world := {
  glob : string → list string;
  read : string → raw_json;
  respond : request → result json;
  difference : string → string
}.

Inductive event :=
| Printed (line : string)
| Requested (rq : request).

(** A command: the events it caused, then its value or its exception. *)
Record io (A : Type) := IO { trace : list event; outcome : result A }.
Arguments IO {A} trace outcome.
Arguments trace {A} _.
Arguments outcome {A} _.

#[global] Instance io_ret : MRet io := λ A a, IO [] (Ok a).
#[global] Instance io_bind : MBind io := λ A B k m,
  match outcome m with
  | Ok a => IO (trace m ++ trace (k a)) (outcome (k a))
  | Raise e => IO (trace m) (Raise e)
  end.

Definition lift {A} (r : result A) : io A := IO [] r.
Definition print (line : string) : io unit := IO [Printed line] (Ok tt).
Definition sys_exit {A} : io A := IO [] (Raise SystemExit).
Definition get_info (w : world) (rq : request) : io json :=
  IO [Requested rq] (respond w rq).

(** [try: m except E: h], for the one exception class [E]. *)
Definition try_except {A} (m : io A) (E : exn) (h : io A) : io A :=
  match outcome m with
  | Raise e => if bool_decide (e = E) then IO (trace m ++ trace h) (outcome h)
               else m
  | Ok _ => m
  end.

Fixpoint for_each {A} (l : list A) (body : A → io unit) : io unit :=
  match l with
  | [] => mret tt
  | x :: rest => body x;; for_each rest body
  end.

Definition nl : string := String (ascii_of_nat 10) "".

Fixpoint rstrip_slash (s : string) : string :=
  match s with
  | "" => ""
  | String c s' =>
      match rstrip_slash s' with
      | "" => if Ascii.eqb c "/" then "" else String c ""
      | r => String c r
      end
  end.

(** The two locals the project check assigns; [None] is "not assigned". *)
Record resolution := {
  project_found : option bool;
  project_uuid : option json
}.

(** Lines 143-145, the body of the scan. *)
Definition check_project (project : string) (st : resolution)
    (current_project : json) : result resolution :=
  status ← getitem current_project "status";
  name ← getitem status "name";
  if eq_str name project then
    metadata ← getitem current_project "metadata";
    uuid ← getitem metadata "uuid";
    Ok {| project_found := Some true; project_uuid := Some uuid |}
  else Ok st.

(** Line 142. *)
Fixpoint scan_projects (project : string) (entities : list json)
    (st : resolution) : result resolution :=
  match entities with
  | [] => Ok st
  | current_project :: rest =>
      st ← check_project project st current_project;
      scan_projects project rest st
  end.

(** The request of line 140. *)
Definition projects_request (o : options) : request :=
  {| verb := "post"; host := cluster_ip o; api := "projects/list";
     body := Dumped (JObj {[ "kind" := JStr "project" ]});
     user := username o; pass := password o |}.

(** Lines 138-145. *)
Definition resolve_project (w : world) (o : options) : io resolution :=
  if bool_decide (project o ≠ "none") then
    results ← get_info w (projects_request o);
    lift (entities ← getitem results "entities";
          items ← iter entities;
          scan_projects (project o) items
            {| project_found := Some false; project_uuid := None |})
  else mret {| project_found := None; project_uuid := None |}.

(** Lines 224-227. *)
Definition outcome_message (w : world) (blueprint : string)
    (json_result : json) : io string :=
  try_except
    (lift (message_list ← getitem json_result "message_list";
           first ← getitem0 message_list;
           message ← getitem first "message";
           s ← concat (JStr (blueprint ++ " : ")) message;
           concat (JStr s) (JStr ".")))
    KeyError
    (lift (s ← concat (JStr (blueprint ++ " : Successfully imported in "))
                 (JFloat (difference w blueprint));
           concat (JStr s) (JStr " seconds."))).

(** What line 199 evaluates. *)
Definition blueprint_name (raw : raw_json) : result json :=
  doc ← loads raw; spec ← getitem doc "spec"; getitem spec "name".

(** Lines 161-230, the body of the loop over the files. *)
Definition import_blueprint (w : world) (o : options) (st : resolution)
    (blueprint : string) : io unit :=
  raw ← lift (transform (project o) (project_uuid st) (dict_variables o)
                (read w blueprint));
  blueprint_name ← try_except
    (lift (blueprint_name raw))
    JSONDecodeError
    (print (blueprint ++ " : Unprocessable JSON file found. Is this definitely a Nutanix Calm blueprint file?");;
     sys_exit);
  json_result ← try_except
    (get_info w
      {| verb := "post"; host := cluster_ip o; api := "blueprints/import_json";
         body := raw; user := username o; pass := password o |})
    JSONDecodeError
    (print (blueprint ++ ": No processable JSON response available.");;
     sys_exit);
  message ← outcome_message w blueprint json_result;
  print message.

(** Lines 134-233. *)
Definition import_all (w : world) (o : options) : io unit :=
  let dir_path := rstrip_slash (directory o) in
  let blueprint_list := glob w (dir_path ++ "/*.json") in
  if bool_decide (0 < List.length blueprint_list)%nat then
    st ← resolve_project w o;
    found ← lift (local (project_found st));
    (if found : bool
     then print (nl ++ "Project" ++ project o ++ " exists.")
     else print (nl ++ "Project " ++ project o
                   ++ " was not found.  Please check the name and retry.");;
          sys_exit);;
    line ← lift (concat (JInt (Z.of_nat (List.length blueprint_list)))
                   (JStr (" JSON files found. Starting import ..." ++ nl)));
    print line;;
    for_each blueprint_list (import_blueprint w o st)
  else
    print (nl ++ "No JSON files found in" ++ directory o
              ++ " ... nothing to import!").

(** [main], from line 122 on, with the globals [get_options] has set. *)
Definition main (w : world) (o : options) : io unit :=
  if bool_decide (cluster_ip o = "") then
    lift (Raise (Exception "Cluster IP is required."))
  else if bool_decide (username o = "") then
    lift (Raise (Exception "Username is required."))
  else if bool_decide (password o = "") then
    lift (Raise (Exception "Password is required."))
  else
    import_all w o;;
    print (nl ++ "Finished!" ++ nl).

(* ===================================================================== *)
(** ** Vocabulary of the statements *)
(* ===================================================================== *)

(** A step that, run again on its own output, changes nothing. *)
Definition settles (f : json → result json) : Prop :=
  ∀ v v', f v = Ok v' → f v' = Ok v'.

(** The dictionary [{"kind": "project", "uuid": U}]. *)
Definition project_reference (U : json) : json :=
  JObj (<["uuid" := U]> (<["kind" := JStr "project"]> ∅)).

(** The document once bound: only [metadata.project_reference] differs. *)
Definition bound (U : json) (m md : gmap string json) : gmap string json :=
  <["metadata" := JObj (<["project_reference" := project_reference U]> md)]> m.

(** [current_project["status"]["name"]] and
    [current_project["metadata"]["uuid"]]. *)
Definition display_name (current_project : json) : result json :=
  status ← getitem current_project "status"; getitem status "name".

Definition identifier (current_project : json) : result json :=
  metadata ← getitem current_project "metadata"; getitem metadata "uuid".

(** An argument given as the string ['none'] taken as not given. *)
Definition drop_none (x : option string) : option string :=
  match x with
  | Some s => if bool_decide (s = "none") then None else Some s
  | None => None
  end.

Definition drop_nones (a : args) : args :=
  {| arg_pc_ip := arg_pc_ip a;
     arg_username := arg_username a;
     arg_password := arg_password a;
     arg_directory := arg_directory a;
     arg_project := arg_project a;
     arg_pe_vip := drop_none (arg_pe_vip a);
     arg_ctr_uuid := drop_none (arg_ctr_uuid a);
     arg_ctr_name := drop_none (arg_ctr_name a);
     arg_clstr_name := drop_none (arg_clstr_name a);
     arg_era_id := drop_none (arg_era_id a);
     arg_network_name := drop_none (arg_network_name a);
     arg_network_vlan := drop_none (arg_network_vlan a) |}.

(** The run fails for want of the project: it prints the line of line 153
    and exits. *)
Definition fails_project_not_found (o : options) (run : io unit) : Prop :=
  outcome run = Raise SystemExit
  ∧ Printed (nl ++ "Project " ++ project o
                ++ " was not found.  Please check the name and retry.")
    ∈ trace run.

(** The requests among the events of a run, in the order they were made. *)
Fixpoint requests (t : list event) : list request :=
  match t with
  | [] => []
  | Requested rq :: t' => rq :: requests t'
  | Printed _ :: t' => requests t'
  end.

(** The request of lines 206-213, for the upload body [raw]. *)
Definition upload_request (o : options) (raw : raw_json) : request :=
  {| verb := "post"; host := cluster_ip o; api := "blueprints/import_json";
     body := raw; user := username o; pass := password o |}.

(** [json_result['message_list'][0]['message']], line 225. *)
Definition first_message (json_result : json) : result json :=
  message_list ← getitem json_result "message_list";
  first ← getitem0 message_list;
  getitem first "message".

(** [parsed["spec"]["resources"]["service_definition_list"]], line 176. *)
Definition service_definition_list (parsed : json) : result json :=
  spec ← getitem parsed "spec";
  resources ← getitem spec "resources";
  getitem resources "service_definition_list".

(** The command-line option that feeds the table key [k] (lines 88-107);
    [None] for a key the table does not have. *)
Definition variable_arg (a : args) (k : string) : option (option string) :=
  if decide (k = "pe_vip") then Some (arg_pe_vip a)
  else if decide (k = "ctr_uuid") then Some (arg_ctr_uuid a)
  else if decide (k = "clstr_name") then Some (arg_clstr_name a)
  else if decide (k = "ctr_name") then Some (arg_ctr_name a)
  else if decide (k = "era_id") then Some (arg_era_id a)
  else if decide (k = "network_name") then Some (arg_network_name a)
  else if decide (k = "network_vlan") then Some (arg_network_vlan a)
  else None.

(** The glob pattern of line 132. *)
Definition pattern (o : options) : string :=
  rstrip_slash (directory o) ++ "/*.json".

(** The events of one reported import: the upload, then the outcome
    line. *)
Definition reported (o : options) (raw : string → raw_json)
    (msg : string → string) (blueprint : string) : list event :=
  [Requested (upload_request o (raw blueprint));
   Printed (blueprint ++ " : " ++ msg blueprint ++ ".")].

(* ===================================================================== *)
(** ** Sample inputs *)
(* ===================================================================== *)

Definition variable (name value : string) : json :=
  JObj (<["name" := JStr name]> (<["value" := JStr value]> ∅)).

Definition service (variables : list json) : json :=
  JObj (<["variable_list" := JArr variables]> ∅).

(** An exported Era blueprint with the variables [variables]. *)
Definition era_fields (variables : list json) : gmap string json :=
  <["metadata" := JObj (<["name" := JStr "EraServerDeployment-v1"]> ∅)]>
  (<["spec" := JObj (<["name" := JStr "bp1"]>
      (<["resources" := JObj (<["service_definition_list" :=
          JArr [service variables]]> ∅)]> ∅))]>
  (<["status" := JObj ∅]> ∅)).

(** An exported blueprint of any other kind, bound to an old project. *)
Definition plain_fields : gmap string json :=
  <["metadata" := JObj (<["name" := JStr "web"]>
      (<["project_reference" := JObj (<["kind" := JStr "project"]>
          (<["name" := JStr "old"]> (<["uuid" := JStr "U0"]> ∅)))]> ∅))]>
  (<["spec" := JObj (<["name" := JStr "web"]> ∅)]>
  (<["status" := JObj ∅]>
  (<["product_version" := JStr "3.0"]> ∅))).

(** A dictionary without [spec]. *)
Definition nameless_fields : gmap string json :=
  <["metadata" := JObj (<["name" := JStr "web"]> ∅)]> ∅.

Definition entity (name uuid : string) : json :=
  JObj (<["status" := JObj (<["name" := JStr name]> ∅)]>
       (<["metadata" := JObj (<["uuid" := JStr uuid]> ∅)]> ∅)).

Definition sample_table : gmap string string :=
  <["pe_vip" := "10.0.0.5"]> default_variables.

Definition sample_options (project : string) : options :=
  {| cluster_ip := "10.0.0.1"; username := "admin"; password := "secret";
     directory := "bp/"; project := project;
     dict_variables := sample_table |}.

(** Prism Central listing the projects [entities] and accepting every
    blueprint with an answer that holds no message list. *)
Definition central (entities : list json) (rq : request) : result json :=
  if bool_decide (api rq = "projects/list")
  then Ok (JObj (<["entities" := JArr entities]> ∅))
  else Ok (JObj ∅).

(** A directory [bp] holding the files [files], every one with the content
    [content]. *)
Definition sample_world (files : list string) (content : raw_json)
    (entities : list json) : world :=
  {| glob := λ pattern, if bool_decide (pattern = "bp/*.json") then files
                        else [];
     read := λ _, content;
     respond := central entities;
     difference := λ _, "1.0" |}.

(** The blueprint [plain_fields] bound to [U1] and stripped. *)
Definition plain_transformed : raw_json :=
  Dumped (JObj
    (<["metadata" := JObj (<["name" := JStr "web"]>
        (<["project_reference" := project_reference (JStr "U1")]> ∅))]>
    (<["spec" := JObj (<["name" := JStr "web"]> ∅)]> ∅))).

(** The Era blueprint bound to [U1], [pe_vip] injected, and stripped. *)
Definition era_transformed : raw_json :=
  Dumped (JObj
    (<["metadata" := JObj (<["name" := JStr "EraServerDeployment-v1"]>
        (<["project_reference" := project_reference (JStr "U1")]> ∅))]>
    (<["spec" := JObj (<["name" := JStr "bp1"]>
        (<["resources" := JObj (<["service_definition_list" :=
            JArr [service [variable "PE_VIP" "10.0.0.5";
                           variable "CTR_NAME" "kept"]]]> ∅)]> ∅))]>
     ∅))).

(** The Era blueprint of the specification's example, bound to [U1], with
    [pe_vip] injected, and stripped. *)
Definition era_bound : raw_json :=
  Dumped (JObj
    (<["metadata" := JObj (<["name" := JStr "EraServerDeployment-v1"]>
        (<["project_reference" := project_reference (JStr "U1")]> ∅))]>
    (<["spec" := JObj (<["name" := JStr "bp1"]>
        (<["resources" := JObj (<["service_definition_list" :=
            JArr [service [variable "PE_VIP" "10.0.0.5"]]]> ∅)]> ∅))]>
     ∅))).

(** A directory holding [files], where [bp/b.json] is the Era blueprint of
    the specification's example, [bp/x.json] a dictionary without [spec]
    and every other file [plain_fields], and a Prism Central that answers
    every request with the one message [message]. *)
Definition answering_world (files : list string) (message : string)
    : world :=
  {| glob := λ _, files;
     read := λ f, if bool_decide (f = "bp/b.json")
                  then Dumped (JObj (era_fields [variable "PE_VIP" "old"]))
                  else if bool_decide (f = "bp/x.json")
                  then Dumped (JObj nameless_fields)
                  else Dumped (JObj plain_fields);
     respond := λ _, Ok (JObj (<["message_list" :=
       JArr [JObj (<["message" := JStr message]> ∅)]]> ∅));
     difference := λ _, "1.0" |}.

(* ===================================================================== *)
(** ** Reasoning about [result] *)
(* ===================================================================== *)

Lemma bind_Ok {A B} (r : result A) (k : A → result B) (b : B) :
  r ≫= k = Ok b ↔ ∃ a, r = Ok a ∧ k a = Ok b.
Proof.
  destruct r as [a|e]; simpl; split.
  - intros H; by exists a.
  - by intros (a' & [= <-] & H).
  - discriminate.
  - by intros (a' & [=] & _).
Qed.

Lemma fmap_Ok {A B} (f : A → B) (r : result A) (b : B) :
  f <$> r = Ok b ↔ ∃ a, r = Ok a ∧ b = f a.
Proof.
  destruct r as [a|e]; simpl; split.
  - intros [= <-]; by exists a.
  - by intros (a' & [= <-] & ->).
  - discriminate.
  - by intros (a' & [=] & _).
Qed.

(** Taking apart a hypothesis that says a sequence of steps returned. *)
Ltac steps :=
  repeat match goal with
  | H : _ ≫= _ = Ok _ |- _ => apply bind_Ok in H as (? & ? & H)
  | H : _ <$> _ = Ok _ |- _ => apply fmap_Ok in H as (? & H & ?)
  | H : Ok _ = Ok _ |- _ => injection H as H
  | H : Raise _ = Ok _ |- _ => discriminate H
  | H : mret _ = Ok _ |- _ => injection H as H
  end.

Section mapM_result.
Context {A B : Type} (f : A → result B).

Lemma mapM_Ok_1 (l : list A) (k : list B) :
  mapM f l = Ok k → Forall2 (λ x y, f x = Ok y) l k.
Proof.
  revert k. induction l as [|x l IH]; intros k H; simpl in H.
  - injection H as <-. constructor.
  - steps. subst k. constructor; auto.
Qed.

Lemma mapM_Ok_2 (l : list A) (k : list B) :
  Forall2 (λ x y, f x = Ok y) l k → mapM f l = Ok k.
Proof.
  induction 1 as [|x y l k Hx _ IH]; simpl; [done|].
  by rewrite Hx; simpl; rewrite IH.
Qed.

End mapM_result.

(* ===================================================================== *)
(** ** The dictionary steps *)
(* ===================================================================== *)

Lemma getitem_Ok (o : json) (k : string) (v : json) :
  getitem o k = Ok v ↔ ∃ m, o = JObj m ∧ m !! k = Some v.
Proof.
  split.
  - destruct o as [| | | | | |m]; simpl; try discriminate.
    destruct (m !! k) eqn:E; [|discriminate]. intros [= <-]. by exists m.
  - intros (m & -> & H). simpl. by rewrite H.
Qed.

Lemma setitem_Ok (o : json) (k : string) (v o' : json) :
  setitem o k v = Ok o' ↔ ∃ m, o = JObj m ∧ o' = JObj (<[k := v]> m).
Proof.
  split.
  - destruct o as [| | | | | |m]; simpl; try discriminate.
    intros [= <-]. by exists m.
  - by intros (m & -> & ->).
Qed.

Lemma at_key_Ok (k : string) (f : json → result json) (o o' : json) :
  at_key k f o = Ok o' ↔
  ∃ m v v', o = JObj m ∧ m !! k = Some v ∧ f v = Ok v'
            ∧ o' = JObj (<[k := v']> m).
Proof.
  unfold at_key. split.
  - intros H. steps.
    match goal with H : getitem _ _ = _ |- _ =>
      apply getitem_Ok in H as (m & -> & Hk) end.
    simpl in H. injection H as <-. eauto 10.
  - intros (m & v & v' & -> & Hk & Hf & ->). simpl. rewrite Hk. simpl.
    by rewrite Hf.
Qed.

Lemma at_key_settles (k : string) (f : json → result json) :
  settles f → settles (at_key k f).
Proof.
  intros Hf o o' H. apply at_key_Ok in H as (m & v & v' & -> & Hk & Hv & ->).
  apply at_key_Ok. exists (<[k := v']> m), v', v'.
  rewrite lookup_insert_eq, insert_insert_eq. eauto.
Qed.

Lemma at_first_Ok (f : json → result json) (o o' : json) :
  at_first f o = Ok o' →
  (∃ v v' rest, o = JArr (v :: rest) ∧ f v = Ok v' ∧ o' = JArr (v' :: rest))
  ∨ (∃ c s v', o = JStr (String c s) ∧ f (JStr (String c "")) = Ok v'
               ∧ o' = o).
Proof.
  unfold at_first. intros H. steps.
  destruct o as [| | | |s|l|m]; simpl in *; try discriminate.
  - destruct s as [|c s]; [discriminate|]. right. steps. subst. eauto 10.
  - destruct l as [|v rest]; [discriminate|]. left. steps. subst. eauto 10.
Qed.

Lemma at_first_settles (f : json → result json) :
  settles f → settles (at_first f).
Proof.
  intros Hf o o' H. destruct (at_first_Ok _ _ _ H)
    as [(v & v' & rest & -> & Hv & ->)|(c & s & v' & -> & Hv & ->)]; [|done].
  unfold at_first. simpl. by rewrite (Hf _ _ Hv).
Qed.

(* ===================================================================== *)
(** ** Project binding (lines 170-172) *)
(* ===================================================================== *)

Lemma bind_project_obj (U : json) (m md : gmap string json) :
  m !! "metadata" = Some (JObj md) →
  bind_project (Some U) (JObj m) = Ok (JObj (bound U m md)).
Proof.
  intros Hmd. unfold bind_project, at_key, bound, project_reference. simpl.
  rewrite Hmd. simpl.
  rewrite !lookup_insert_eq. simpl.
  rewrite !lookup_insert_eq. simpl.
  rewrite !lookup_insert_eq. simpl.
  rewrite !lookup_insert_eq. simpl.
  by rewrite !insert_insert_eq.
Qed.

Lemma bind_project_Ok (pu : option json) (parsed parsed' : json) :
  bind_project pu parsed = Ok parsed' →
  ∃ U m md, pu = Some U ∧ parsed = JObj m ∧ m !! "metadata" = Some (JObj md)
            ∧ parsed' = JObj (bound U m md).
Proof.
  intros H. pose proof H as H0. unfold bind_project in H. steps.
  match goal with H : at_key "metadata" _ parsed = Ok _ |- _ =>
    apply at_key_Ok in H as (m & v & v' & -> & Hk & Hv & _) end.
  apply setitem_Ok in Hv as (md & -> & _).
  destruct pu as [U|]; [|discriminate].
  rewrite (bind_project_obj U m md Hk) in H0. injection H0 as <-. eauto 10.
Qed.

(** Binding a document that already carries the reference changes
    nothing. *)
Lemma bound_id (U : json) (m md : gmap string json) :
  m !! "metadata" = Some (JObj md) →
  md !! "project_reference" = Some (project_reference U) →
  bound U m md = m.
Proof.
  intros Hm Hmd. unfold bound. by rewrite (insert_id md), (insert_id m).
Qed.

(* ===================================================================== *)
(** ** Variable injection (lines 176-181) *)
(* ===================================================================== *)

Lemma set_variable_Ok (tbl : gmap string string) (d d' : json) :
  set_variable tbl d = Ok d' ↔
  ∃ m nm v, d = JObj m ∧ m !! "name" = Some (JStr nm)
            ∧ tbl !! lower_string nm = Some v
            ∧ d' = if bool_decide (v ≠ "none")
                   then JObj (<["value" := JStr v]> m) else JObj m.
Proof.
  unfold set_variable. split.
  - intros H. steps.
    match goal with H : getitem _ _ = _ |- _ =>
      apply getitem_Ok in H as (m & -> & Hn) end.
    match goal with H : lower ?x = _ |- _ =>
      destruct x; simpl in H; try discriminate H; injection H as <- end.
    match goal with H : table_get _ _ = Ok ?v |- _ =>
      unfold table_get in H;
      destruct (tbl !! _) as [v'|] eqn:Hv; [injection H as ->|discriminate H]
    end.
    eexists m, _, _. repeat split; eauto.
    case_bool_decide; simpl in H; by injection H as <-.
  - intros (m & nm & v & -> & Hn & Hv & ->). simpl. rewrite Hn. simpl.
    unfold table_get. rewrite Hv. simpl. by case_bool_decide.
Qed.

Lemma set_variable_settles (tbl : gmap string string) :
  settles (set_variable tbl).
Proof.
  intros d d' H. apply set_variable_Ok in H as (m & nm & v & -> & Hn & Hv & ->).
  apply set_variable_Ok. case_bool_decide as Hnone.
  - exists (<["value" := JStr v]> m), nm, v.
    rewrite lookup_insert_ne by done. repeat split; auto.
    rewrite bool_decide_true by done. by rewrite insert_insert_eq.
  - exists m, nm, v. repeat split; auto.
    rewrite bool_decide_false; [done|]. by intros Hv'.
Qed.

Lemma mapM_settles (f : json → result json) (l l' : list json) :
  settles f → mapM f l = Ok l' → mapM f l' = Ok l'.
Proof.
  intros Hf H. apply mapM_Ok_1 in H. apply mapM_Ok_2.
  induction H; constructor; eauto.
Qed.

Lemma set_variables_settles (tbl : gmap string string) :
  settles (set_variables tbl).
Proof.
  intros vl vl' H.
  destruct vl; simpl in H; try discriminate H;
    try (steps; subst; simpl;
         match goal with H : mapM _ _ = Ok _ |- _ => by rewrite H end).
  steps. subst. simpl.
  match goal with H : mapM _ _ = Ok _ |- _ =>
    by rewrite (mapM_settles _ _ _ (set_variable_settles tbl) H) end.
Qed.

Lemma inject_variables_settles (tbl : gmap string string) :
  settles (inject_variables tbl).
Proof.
  unfold inject_variables.
  do 3 apply at_key_settles.
  apply at_first_settles, at_key_settles, set_variables_settles.
Qed.

(** Injection rewrites the value under ["spec"] and no other key. *)
Lemma inject_variables_Ok (tbl : gmap string string) (parsed parsed' : json) :
  inject_variables tbl parsed = Ok parsed' →
  ∃ m s s', parsed = JObj m ∧ m !! "spec" = Some s
            ∧ parsed' = JObj (<["spec" := s']> m).
Proof.
  intros H. apply at_key_Ok in H as (m & s & s' & -> & Hs & _ & ->). eauto 10.
Qed.

(* ===================================================================== *)
(** ** Removal of the export-only keys (lines 187-194) *)
(* ===================================================================== *)

Lemma pop_if_present_obj (k : string) (m : gmap string json) :
  pop_if_present k (JObj m) = Ok (JObj (delete k m)).
Proof.
  unfold pop_if_present, contains. cbn [mbind result_bind].
  destruct (m !! k) as [v|] eqn:Hk.
  - rewrite bool_decide_true by eauto. unfold pop. by rewrite Hk.
  - rewrite bool_decide_false by (by intros [? ?]). by rewrite delete_id.
Qed.

(** On a document that is not a dictionary the step returns only when the
    test of line 188 (190) is false, and then changes nothing. *)
Lemma pop_if_present_other (k : string) (o o' : json) :
  (∀ m, o ≠ JObj m) → pop_if_present k o = Ok o' →
  o' = o ∧ contains k o = Ok false.
Proof.
  intros Hno H. unfold pop_if_present in H. steps.
  match goal with H : contains _ _ = Ok ?b |- _ => destruct b end.
  - destruct o; simpl in *; try discriminate. by destruct (Hno fields).
  - by injection H as <-.
Qed.

Lemma remove_export_keys_obj (m : gmap string json) :
  remove_export_keys (Dumped (JObj m))
  = Ok (Dumped (JObj (delete "product_version" (delete "status" m)))).
Proof.
  unfold remove_export_keys. simpl. rewrite pop_if_present_obj. simpl.
  by rewrite pop_if_present_obj.
Qed.

Lemma stripped_id (m : gmap string json) :
  m !! "status" = None → m !! "product_version" = None →
  delete "product_version" (delete "status" m) = m.
Proof. intros H1 H2. by rewrite (delete_id m "status"), delete_id. Qed.

Lemma stripped_lookup (m : gmap string json) :
  delete "product_version" (delete "status" m) !! "status" = None
  ∧ delete "product_version" (delete "status" m) !! "product_version" = None.
Proof.
  split; [|apply lookup_delete_eq].
  rewrite lookup_delete_ne by done. apply lookup_delete_eq.
Qed.

Lemma stripped_lookup_ne (m : gmap string json) (k : string) :
  k ≠ "status" → k ≠ "product_version" →
  delete "product_version" (delete "status" m) !! k = m !! k.
Proof. intros H1 H2. by rewrite !lookup_delete_ne. Qed.

Lemma is_dict (doc : json) : (∃ m, doc = JObj m) ∨ (∀ m, doc ≠ JObj m).
Proof. destruct doc; eauto; right; intros; discriminate. Qed.

Lemma remove_export_keys_settles (raw raw' : raw_json) :
  remove_export_keys raw = Ok raw' → remove_export_keys raw' = Ok raw'.
Proof.
  intros H. destruct raw as [t|doc]; [discriminate|].
  destruct (is_dict doc) as [[m ->]|Hno'].
  - rewrite remove_export_keys_obj in H. injection H as <-.
    rewrite remove_export_keys_obj.
    destruct (stripped_lookup m) as [H1 H2]. by rewrite stripped_id.
  - unfold remove_export_keys in H. simpl in H. steps.
    match goal with H : pop_if_present "status" _ = _ |- _ =>
      pose proof H as Hs;
      apply pop_if_present_other in H as [-> _]; [|done] end.
    match goal with H : pop_if_present "product_version" _ = _ |- _ =>
      pose proof H as Hp;
      apply pop_if_present_other in H as [-> _]; [|done] end.
    subst raw'. unfold remove_export_keys, dumps. simpl.
    rewrite Hs. simpl. by rewrite Hp.
Qed.

(* ===================================================================== *)
(** ** The project step as a whole (lines 169-184) *)
(* ===================================================================== *)

(** What a successful project step looks like: the document is a dictionary
    with a [metadata] dictionary holding a [name]; it is bound to [U], and
    when the name marks the Era blueprint the variables are injected. *)
Lemma add_project_Ok (pu : option json) (tbl : gmap string string)
    (raw raw1 : raw_json) :
  add_project pu tbl raw = Ok raw1 →
  ∃ U m md nm era m2,
    pu = Some U ∧ raw = Dumped (JObj m) ∧ m !! "metadata" = Some (JObj md)
    ∧ <["project_reference" := project_reference U]> md !! "name" = Some nm
    ∧ contains "EraServerDeployment" nm = Ok era
    ∧ (if era : bool
       then inject_variables tbl (JObj (bound U m md)) = Ok (JObj m2)
       else m2 = bound U m md)
    ∧ raw1 = Dumped (JObj m2).
Proof.
  intros H. unfold add_project in H. steps.
  match goal with H : loads _ = _ |- _ =>
    destruct raw as [t|doc]; [discriminate H|injection H as ->] end.
  match goal with H : bind_project _ _ = _ |- _ =>
    apply bind_project_Ok in H as (U & m & md & -> & -> & Hmd & ->) end.
  match goal with H : getitem (JObj (bound _ _ _)) _ = _ |- _ =>
    unfold bound in H; simpl in H; rewrite lookup_insert_eq in H;
    injection H as <- end.
  match goal with H : getitem _ "name" = _ |- _ =>
    apply getitem_Ok in H as (md' & [= <-] & Hnm) end.
  match goal with H : contains _ ?n = Ok ?b |- _ =>
    exists U, m, md, n, b end.
  match goal with H : (if ?b then _ else _) = Ok ?p |- _ => destruct b end.
  - match goal with H : inject_variables _ _ = Ok ?p |- _ =>
      pose proof H as Hinj;
      apply inject_variables_Ok in H as (m0 & s & s' & _ & _ & ->) end.
    eexists. subst raw1. repeat split; eauto.
  - steps. subst. eexists. repeat split; eauto.
Qed.

(** A dictionary is left as it is by [at_key k f] exactly when [f] leaves
    the value under [k] as it is. *)
Lemma at_key_fixed (k : string) (f : json → result json)
    (m : gmap string json) :
  at_key k f (JObj m) = Ok (JObj m) ↔ ∃ v, m !! k = Some v ∧ f v = Ok v.
Proof.
  split.
  - intros H. apply at_key_Ok in H as (m0 & v & v' & [= <-] & Hk & Hv & [= Hm]).
    assert (m !! k = Some v') as Hk' by (rewrite Hm; apply lookup_insert_eq).
    rewrite Hk in Hk'. injection Hk' as <-. eauto.
  - intros (v & Hk & Hv). apply at_key_Ok. exists m, v, v.
    by rewrite insert_id.
Qed.

Lemma inject_variables_stripped (tbl : gmap string string)
    (m : gmap string json) :
  inject_variables tbl (JObj m) = Ok (JObj m) →
  inject_variables tbl (JObj (delete "product_version" (delete "status" m)))
  = Ok (JObj (delete "product_version" (delete "status" m))).
Proof.
  unfold inject_variables. intros H. apply at_key_fixed in H as (v & Hk & Hv).
  apply at_key_fixed. exists v. by rewrite stripped_lookup_ne.
Qed.

(** The project step run on a document that is bound to [U] already, and
    whose variables (if it is the Era blueprint) are injected already. *)
Lemma add_project_fixed (U : json) (tbl : gmap string string)
    (m md : gmap string json) (nm : json) (era : bool) :
  m !! "metadata" = Some (JObj md) →
  md !! "project_reference" = Some (project_reference U) →
  md !! "name" = Some nm →
  contains "EraServerDeployment" nm = Ok era →
  (era = true → inject_variables tbl (JObj m) = Ok (JObj m)) →
  add_project (Some U) tbl (Dumped (JObj m)) = Ok (Dumped (JObj m)).
Proof.
  intros Hm Hpr Hnm Hera Hinj. unfold add_project.
  cbn [loads mbind result_bind].
  rewrite (bind_project_obj U m md Hm), (bound_id U m md Hm Hpr).
  cbn [mbind result_bind getitem]. rewrite Hm.
  cbn [mbind result_bind getitem]. rewrite Hnm.
  cbn [mbind result_bind]. rewrite Hera. cbn [mbind result_bind].
  destruct era; [|done]. by rewrite Hinj.
Qed.

(** A plain blueprint (one whose name does not mark the Era blueprint)
    always goes through the project step. *)
Lemma add_project_plain (U : json) (tbl : gmap string string)
    (m md : gmap string json) (nm : string) :
  m !! "metadata" = Some (JObj md) →
  md !! "name" = Some (JStr nm) →
  is_substring "EraServerDeployment" nm = false →
  add_project (Some U) tbl (Dumped (JObj m))
  = Ok (Dumped (JObj (bound U m md))).
Proof.
  intros Hm Hnm Hera. unfold add_project.
  cbn [loads mbind result_bind].
  rewrite (bind_project_obj U m md Hm).
  unfold bound at 1. cbn [mbind result_bind getitem].
  rewrite lookup_insert_eq. cbn [mbind result_bind getitem].
  rewrite lookup_insert_ne by done. rewrite Hnm.
  cbn [mbind result_bind contains]. by rewrite Hera.
Qed.

(** The project step returns for every dictionary whose [metadata] is a
    dictionary with a string [name], provided the injection goes through
    when that name marks the Era blueprint. *)
Lemma add_project_returns (U : json) (tbl : gmap string string)
    (m md : gmap string json) (nm : string) :
  m !! "metadata" = Some (JObj md) →
  md !! "name" = Some (JStr nm) →
  (is_substring "EraServerDeployment" nm = true →
   ∃ parsed, inject_variables tbl (JObj (bound U m md)) = Ok parsed) →
  ∃ m2, add_project (Some U) tbl (Dumped (JObj m)) = Ok (Dumped (JObj m2)).
Proof.
  intros Hm Hnm Hinj.
  destruct (is_substring "EraServerDeployment" nm) eqn:Hera.
  - destruct (Hinj eq_refl) as [parsed Hparsed].
    destruct (inject_variables_Ok _ _ _ Hparsed) as (m0 & s & s' & _ & _ & ->).
    eexists. unfold add_project. cbn [loads mbind result_bind].
    rewrite (bind_project_obj U m md Hm).
    unfold bound at 1. cbn [mbind result_bind getitem].
    rewrite lookup_insert_eq. cbn [mbind result_bind getitem].
    rewrite lookup_insert_ne by done. rewrite Hnm.
    cbn [mbind result_bind contains]. rewrite Hera.
    cbn [mbind result_bind]. fold (bound U m md). rewrite Hparsed. done.
  - exists (bound U m md). by apply (add_project_plain U tbl m md nm).
Qed.

(* ===================================================================== *)
(** ** Properties of the transformation *)
(* ===================================================================== *)

(** C6.  The document the transformation returns has neither a [status]
    nor a [product_version] key, whether a project was requested or not:
    without a project the transformation of a dictionary always returns,
    and returns the input less the two keys; with a project it returns
    whenever the project step does, and the two keys are gone as well. *)
Theorem export_keys_removed (project : string) (pu : option json)
    (tbl : gmap string string) (m : gmap string json) :
  (project ≠ "none" → ∃ raw1, add_project pu tbl (Dumped (JObj m)) = Ok raw1) →
  ∃ m', transform project pu tbl (Dumped (JObj m)) = Ok (Dumped (JObj m'))
        ∧ m' !! "status" = None
        ∧ m' !! "product_version" = None
        ∧ (project = "none" →
           m' = delete "product_version" (delete "status" m)).
Proof.
  intros Hproj. unfold transform. case_bool_decide as Hp.
  - destruct (Hproj Hp) as [raw1 H1]. rewrite H1.
    apply add_project_Ok in H1
      as (U & m0 & md & nm & era & m2 & _ & _ & _ & _ & _ & _ & ->).
    cbn [mbind result_bind]. rewrite remove_export_keys_obj.
    destruct (stripped_lookup m2). eexists. repeat split; eauto. done.
  - cbn [mbind result_bind]. rewrite remove_export_keys_obj.
    destruct (stripped_lookup m). eexists. repeat split; eauto.
Qed.

(** C7.  With a project resolved to [U], every document the
    transformation returns holds exactly [{"kind": "project", "uuid": U}]
    under [metadata.project_reference], whatever was there before; and
    the transformation does return for every dictionary whose [metadata]
    is a dictionary with a string [name], provided the injection goes
    through when that name marks the Era blueprint. *)
Theorem project_reference_exact (project : string) (U : json)
    (tbl : gmap string string) :
  project ≠ "none" →
  (∀ raw raw',
     transform project (Some U) tbl raw = Ok raw' →
     ∃ m' md', raw' = Dumped (JObj m')
               ∧ m' !! "metadata" = Some (JObj md')
               ∧ md' !! "project_reference" = Some (project_reference U))
  ∧ (∀ (m md : gmap string json) (nm : string),
       m !! "metadata" = Some (JObj md) →
       md !! "name" = Some (JStr nm) →
       (is_substring "EraServerDeployment" nm = true →
        ∃ parsed, inject_variables tbl (JObj (bound U m md)) = Ok parsed) →
       ∃ raw', transform project (Some U) tbl (Dumped (JObj m)) = Ok raw').
Proof.
  intros Hp. split.
  - intros raw raw' H. unfold transform in H.
    rewrite bool_decide_true in H by done. steps.
    match goal with H : add_project _ _ _ = _ |- _ =>
      apply add_project_Ok in H
        as (U' & m & md & nm & era & m2 & [= <-] & -> & Hm & Hnm & Hera
            & Hm2 & ->)
    end.
    rewrite remove_export_keys_obj in H. injection H as <-.
    exists (delete "product_version" (delete "status" m2)),
           (<["project_reference" := project_reference U]> md).
    split; [done|]. rewrite stripped_lookup_ne by done.
    split; [|apply lookup_insert_eq].
    destruct era.
    + apply inject_variables_Ok in Hm2 as (m0 & s & s' & [= <-] & _ & [= ->]).
      rewrite lookup_insert_ne by done. apply lookup_insert_eq.
    + subst m2. apply lookup_insert_eq.
  - intros m md nm Hm Hnm Hinj. unfold transform.
    rewrite bool_decide_true by done.
    destruct (add_project_returns U tbl m md nm Hm Hnm Hinj) as [m2 ->].
    cbn [mbind result_bind]. rewrite remove_export_keys_obj. eauto.
Qed.

(** C8.  Transforming the output of the transformation again, with the same
    project, uuid and table, returns that output unchanged. *)
Theorem transform_idempotent (project : string) (pu : option json)
    (tbl : gmap string string) (raw raw' : raw_json) :
  transform project pu tbl raw = Ok raw' →
  transform project pu tbl raw' = Ok raw'.
Proof.
  unfold transform. case_bool_decide as Hp; cbn [mbind result_bind].
  - intros H. steps.
    match goal with H : add_project _ _ _ = _ |- _ =>
      apply add_project_Ok in H
        as (U & m & md & nm & era & m2 & -> & -> & Hm & Hnm & Hera & Hm2 & ->)
    end.
    rewrite remove_export_keys_obj in H. injection H as <-.
    destruct (stripped_lookup m2) as [Hs Hv].
    set (m4 := delete "product_version" (delete "status" m2)) in *.
    assert (m2 !! "metadata"
            = Some (JObj (<["project_reference" := project_reference U]> md)))
      as Hmeta.
    { destruct era.
      - apply inject_variables_Ok in Hm2 as (m0 & s & s' & [= <-] & _ & [= ->]).
        rewrite lookup_insert_ne by done. apply lookup_insert_eq.
      - subst m2. apply lookup_insert_eq. }
    rewrite (add_project_fixed U tbl m4
               (<["project_reference" := project_reference U]> md) nm era).
    + cbn [mbind result_bind]. rewrite remove_export_keys_obj.
      by rewrite stripped_id.
    + unfold m4. by rewrite stripped_lookup_ne.
    + apply lookup_insert_eq.
    + done.
    + done.
    + intros ->. apply inject_variables_stripped.
      by apply (inject_variables_settles tbl (JObj (bound U m md))).
  - apply remove_export_keys_settles.
Qed.

(* ===================================================================== *)
(** ** Project resolution (lines 138-145) *)
(* ===================================================================== *)

Lemma check_project_match (project : string) (st : resolution)
    (e u : json) :
  display_name e = Ok (JStr project) → identifier e = Ok u →
  check_project project st e
  = Ok {| project_found := Some true; project_uuid := Some u |}.
Proof.
  unfold display_name, identifier, check_project. intros Hn Hu.
  destruct (getitem e "status") as [status|]; [|discriminate].
  cbn [mbind result_bind] in *. rewrite Hn. cbn [mbind result_bind eq_str].
  rewrite bool_decide_true by done.
  destruct (getitem e "metadata") as [metadata|]; [|discriminate].
  cbn [mbind result_bind] in *. by rewrite Hu.
Qed.

Lemma check_project_other (project : string) (st : resolution)
    (e nm : json) :
  display_name e = Ok nm → eq_str nm project = false →
  check_project project st e = Ok st.
Proof.
  unfold display_name, check_project. intros Hn Hne.
  destruct (getitem e "status") as [status|]; [|discriminate].
  cbn [mbind result_bind] in *. rewrite Hn. cbn [mbind result_bind].
  by rewrite Hne.
Qed.

Lemma scan_projects_app (project : string) (l1 l2 : list json)
    (st : resolution) :
  scan_projects project (l1 ++ l2) st
  = scan_projects project l1 st ≫= scan_projects project l2.
Proof.
  revert st. induction l1 as [|e l1 IH]; intros st; [done|].
  cbn [app scan_projects].
  destruct (check_project project st e) as [st'|]; [|done].
  cbn [mbind result_bind]. apply IH.
Qed.

Lemma scan_projects_others (project : string) (l : list json)
    (st : resolution) :
  Forall (λ x, ∃ nm, display_name x = Ok nm ∧ eq_str nm project = false) l →
  scan_projects project l st = Ok st.
Proof.
  induction 1 as [|e l (nm & Hn & Hne) _ IH]; [done|].
  cbn [scan_projects]. rewrite (check_project_other _ _ _ _ Hn Hne).
  cbn [mbind result_bind]. apply IH.
Qed.

(** C9.  When the listing holds an entity named as the requested project
    and no later entity is, resolution captures the uuid of that entity,
    whatever the earlier entities matched: the scan runs to the end of the
    listing and a later match overwrites an earlier one. *)
Theorem last_match_wins (w : world) (o : options) (results : json)
    (before after : list json) (e u : json) (st : resolution) :
  project o ≠ "none" →
  respond w (projects_request o) = Ok results →
  getitem results "entities" = Ok (JArr (before ++ e :: after)) →
  scan_projects (project o) before
    {| project_found := Some false; project_uuid := None |} = Ok st →
  display_name e = Ok (JStr (project o)) →
  identifier e = Ok u →
  Forall (λ x, ∃ nm, display_name x = Ok nm
                     ∧ eq_str nm (project o) = false) after →
  resolve_project w o
  = IO [Requested (projects_request o)]
       (Ok {| project_found := Some true; project_uuid := Some u |}).
Proof.
  intros Hp Hr He Hbefore Hn Hu Hafter. unfold resolve_project.
  rewrite bool_decide_true by done.
  unfold get_info, lift, mbind, io_bind.
  cbn [outcome trace]. rewrite Hr. cbn [outcome trace].
  rewrite He. cbn [mbind result_bind iter].
  rewrite scan_projects_app, Hbefore. cbn [mbind result_bind scan_projects].
  rewrite (check_project_match _ _ _ _ Hn Hu). cbn [mbind result_bind].
  by rewrite (scan_projects_others _ _ _ Hafter).
Qed.

(* ===================================================================== *)
(** ** The sentinel ['none'] *)
(* ===================================================================== *)

Lemma lookup_set_if_ne (k k' : string) (x : option string)
    (d : gmap string string) :
  k ≠ k' → set_if k x d !! k' = d !! k'.
Proof.
  intros Hne. unfold set_if. destruct x as [[|c s]|]; try done.
  by rewrite lookup_insert_ne.
Qed.

Lemma set_if_drop_none (k : string) (x : option string)
    (d d' : gmap string string) :
  d = d' → d' !! k = Some "none" → set_if k (drop_none x) d = set_if k x d'.
Proof.
  intros -> Hk. destruct x as [s|]; [|done]. unfold drop_none.
  case_bool_decide as Hs; [|done]. subst s. cbn [set_if].
  by rewrite insert_id.
Qed.

Lemma drop_nones_table (a : args) (typed_username typed_password : string) :
  dict_variables (get_options (drop_nones a) typed_username typed_password)
  = dict_variables (get_options a typed_username typed_password).
Proof.
  unfold get_options, drop_nones. cbn [dict_variables arg_pe_vip arg_ctr_uuid
    arg_ctr_name arg_clstr_name arg_era_id arg_network_name arg_network_vlan].
  repeat (apply set_if_drop_none;
          [|by rewrite ?lookup_set_if_ne by done]).
  done.
Qed.

Lemma set_variable_sentinel (tbl : gmap string string) (var_dict : json)
    (nm : string) :
  getitem var_dict "name" = Ok (JStr nm) →
  tbl !! lower_string nm = Some "none" →
  set_variable tbl var_dict = Ok var_dict.
Proof.
  intros Hn Hv. apply getitem_Ok in Hn as (m & -> & Hn).
  apply set_variable_Ok. exists m, nm, "none". repeat split; auto.
Qed.

Lemma set_variable_written (tbl : gmap string string) (var_dict var_dict' : json) :
  set_variable tbl var_dict = Ok var_dict' →
  getitem var_dict' "value" = Ok (JStr "none") →
  var_dict' = var_dict.
Proof.
  intros H Hv. apply set_variable_Ok in H as (m & nm & v & -> & Hn & Ht & ->).
  case_bool_decide as Hne; [|done]. cbn [getitem] in Hv.
  rewrite lookup_insert_eq in Hv. by injection Hv as ->.
Qed.

(** C10.  A variable given as ['none'] on the command line builds the same
    table as a variable not given; an entry of the variable list whose
    table value is ['none'] comes out of the injection loop as it went in;
    and an entry that comes out with the value ['none'] was not written. *)
Theorem sentinel_never_injected :
  (∀ (a : args) (typed_username typed_password : string),
     dict_variables (get_options (drop_nones a) typed_username typed_password)
     = dict_variables (get_options a typed_username typed_password))
  ∧ (∀ (tbl : gmap string string) (l l' : list json) (i : nat) (e : json)
       (nm : string),
       set_variables tbl (JArr l) = Ok (JArr l') →
       l !! i = Some e →
       getitem e "name" = Ok (JStr nm) →
       tbl !! lower_string nm = Some "none" →
       l' !! i = Some e)
  ∧ (∀ (tbl : gmap string string) (l l' : list json) (i : nat) (e' : json),
       set_variables tbl (JArr l) = Ok (JArr l') →
       l' !! i = Some e' →
       getitem e' "value" = Ok (JStr "none") →
       l !! i = Some e').
Proof.
  split; [apply drop_nones_table|]. split.
  - intros tbl l l' i e nm H Hi Hn Hv. cbn [set_variables] in H.
    apply fmap_Ok in H as (k & H & [= ->]). apply mapM_Ok_1 in H.
    destruct (Forall2_lookup_l _ _ _ _ _ H Hi) as (e' & Hi' & He).
    rewrite (set_variable_sentinel _ _ _ Hn Hv) in He. by injection He as <-.
  - intros tbl l l' i e' H Hi Hv. cbn [set_variables] in H.
    apply fmap_Ok in H as (k & H & [= ->]). apply mapM_Ok_1 in H.
    destruct (Forall2_lookup_r _ _ _ _ _ H Hi) as (e & Hi' & He).
    by rewrite (set_variable_written _ _ _ He Hv).
Qed.

(* ===================================================================== *)
(** ** The run: what happens before the first file *)
(* ===================================================================== *)

Lemma main_credentials (w : world) (o : options) :
  cluster_ip o ≠ "" → username o ≠ "" → password o ≠ "" →
  main w o = (import_all w o;; print (nl ++ "Finished!" ++ nl)).
Proof. intros H1 H2 H3. unfold main. by rewrite !bool_decide_false. Qed.

(** Line 157 adds an [int] to a [str]. *)
Lemma starting_import_raises (n : nat) :
  concat (JInt (Z.of_nat n))
    (JStr (" JSON files found. Starting import ..." ++ nl))
  = Raise TypeError.
Proof. done. Qed.

(** Line 227 adds a [str] to a [float]. *)
Lemma success_message_raises (w : world) (blueprint : string) :
  concat (JStr (blueprint ++ " : Successfully imported in "))
    (JFloat (difference w blueprint)) = Raise TypeError.
Proof. done. Qed.

(** Without a project the run reaches line 148 with [project_found]
    unassigned. *)
Lemma default_mode_unbound (w : world) (o : options) :
  cluster_ip o ≠ "" → username o ≠ "" → password o ≠ "" →
  project o = "none" →
  glob w (rstrip_slash (directory o) ++ "/*.json") ≠ [] →
  main w o = IO [] (Raise UnboundLocalError).
Proof.
  intros H1 H2 H3 Hp Hfiles. rewrite main_credentials by done.
  unfold import_all, resolve_project.
  destruct (glob w _) as [|f files]; [done|].
  rewrite bool_decide_true by (cbn; lia).
  rewrite bool_decide_false by (by rewrite Hp; intros Hne).
  done.
Qed.

(** With the project found the run reaches line 157 and stops there. *)
Lemma project_found_type_error (w : world) (o : options) (u : json) :
  cluster_ip o ≠ "" → username o ≠ "" → password o ≠ "" →
  glob w (rstrip_slash (directory o) ++ "/*.json") ≠ [] →
  resolve_project w o
  = IO [Requested (projects_request o)]
       (Ok {| project_found := Some true; project_uuid := Some u |}) →
  main w o = IO [Requested (projects_request o);
                 Printed (nl ++ "Project" ++ project o ++ " exists.")]
                (Raise TypeError).
Proof.
  intros H1 H2 H3 Hfiles Hres. rewrite main_credentials by done.
  unfold import_all. destruct (glob w _) as [|f files]; [done|].
  rewrite bool_decide_true by (cbn; lia). rewrite Hres. done.
Qed.

(** With the project missing from the listing the run exits at line 154. *)
Lemma project_missing_exits (w : world) (o : options) :
  cluster_ip o ≠ "" → username o ≠ "" → password o ≠ "" →
  glob w (rstrip_slash (directory o) ++ "/*.json") ≠ [] →
  resolve_project w o
  = IO [Requested (projects_request o)]
       (Ok {| project_found := Some false; project_uuid := None |}) →
  main w o
  = IO [Requested (projects_request o);
        Printed (nl ++ "Project " ++ project o
                    ++ " was not found.  Please check the name and retry.")]
       (Raise SystemExit).
Proof.
  intros H1 H2 H3 Hfiles Hres. rewrite main_credentials by done.
  unfold import_all. destruct (glob w _) as [|f files]; [done|].
  rewrite bool_decide_true by (cbn; lia). rewrite Hres. done.
Qed.

Lemma lift_bind {A B} (r : result A) (k : A → io B) :
  lift r ≫= k = match r with
                | Ok a => k a
                | Raise e => IO [] (Raise e)
                end.
Proof.
  destruct r as [a|e]; [|done]. unfold lift, mbind, io_bind.
  cbn [outcome trace]. by destruct (k a).
Qed.

(** An exception the [except] clause does not name passes through. *)
Lemma try_except_other {A} (m h : io A) (E e : exn) :
  outcome m = Raise e ∧ e ≠ E → try_except m E h = m.
Proof.
  intros [Hm Hne]. unfold try_except. rewrite Hm.
  by rewrite bool_decide_false.
Qed.

Lemma io_bind_trace {A B} (m : io A) (k : A → io B) (ev : event) :
  ev ∈ trace (m ≫= k) →
  ev ∈ trace m ∨ ∃ a, outcome m = Ok a ∧ ev ∈ trace (k a).
Proof.
  unfold mbind, io_bind. destruct (outcome m) as [a|e]; cbn [trace].
  - rewrite elem_of_app. intros [?|?]; eauto.
  - eauto.
Qed.

(** A list of printed lines holds no request. *)
Ltac only_prints H :=
  cbn in H;
  repeat (apply elem_of_cons in H as [H|H]; [discriminate H|]);
  destruct (not_elem_of_nil _ H).

Lemma resolve_project_requests (w : world) (o : options) (rq : request) :
  Requested rq ∈ trace (resolve_project w o) → rq = projects_request o.
Proof.
  unfold resolve_project. case_bool_decide.
  - intros [H'|(a & _ & H')]%io_bind_trace.
    + apply list_elem_of_singleton in H'. by injection H'.
    + destruct (not_elem_of_nil _ H').
  - intros H'. destruct (not_elem_of_nil _ H').
Qed.

Lemma import_all_requests (w : world) (o : options) (rq : request) :
  Requested rq ∈ trace (import_all w o) → rq = projects_request o.
Proof.
  unfold import_all. case_bool_decide.
  - intros [H'|(st & _ & H')]%io_bind_trace;
      [exact (resolve_project_requests _ _ _ H')|].
    apply io_bind_trace in H' as [H'|(found & _ & H')];
      [destruct (not_elem_of_nil _ H')|].
    apply io_bind_trace in H' as [H'|(? & _ & H')].
    + destruct found; only_prints H'.
    + rewrite starting_import_raises in H'. destruct (not_elem_of_nil _ H').
  - intros H'. only_prints H'.
Qed.

(** No run posts a blueprint: every request is the project listing. *)
Lemma nothing_is_posted (w : world) (o : options) (rq : request) :
  Requested rq ∈ trace (main w o) → rq = projects_request o.
Proof.
  unfold main. repeat case_bool_decide;
    try (intros H'; destruct (not_elem_of_nil _ H')).
  intros [H'|(? & _ & H')]%io_bind_trace.
  - exact (import_all_requests _ _ _ H').
  - only_prints H'.
Qed.

(** With no file found nothing is asked of Prism Central. *)
Lemma import_all_empty (w : world) (o : options) :
  glob w (rstrip_slash (directory o) ++ "/*.json") = [] →
  import_all w o
  = print (nl ++ "No JSON files found in" ++ directory o
              ++ " ... nothing to import!").
Proof.
  intros Hfiles. unfold import_all. rewrite Hfiles.
  by rewrite bool_decide_false by (cbn; lia).
Qed.

(* ===================================================================== *)
(** ** The run: one file (lines 161-230) *)
(* ===================================================================== *)

Lemma transform_unparsable (project : string) (pu : option json)
    (tbl : gmap string string) (text : string) :
  transform project pu tbl (Unparsable text) = Raise JSONDecodeError.
Proof. unfold transform. by case_bool_decide. Qed.

(** The [json.loads] calls of lines 169 and 187 stand outside the [try]
    of line 198. *)
Lemma import_blueprint_unparsable (w : world) (o : options) (st : resolution)
    (blueprint text : string) :
  read w blueprint = Unparsable text →
  import_blueprint w o st blueprint = IO [] (Raise JSONDecodeError).
Proof.
  intros Hread. unfold import_blueprint.
  by rewrite Hread, transform_unparsable.
Qed.

Lemma transform_dumps (project : string) (pu : option json)
    (tbl : gmap string string) (raw raw' : raw_json) :
  transform project pu tbl raw = Ok raw' → ∃ doc, raw' = Dumped doc.
Proof.
  unfold transform, remove_export_keys. intros H. steps. subst raw'.
  unfold dumps. eauto.
Qed.

(** The handler of line 200 is never entered: the text given to line 199
    was written by [json.dumps] on line 194. *)
Lemma name_check_never_caught (project : string) (pu : option json)
    (tbl : gmap string string) (raw raw' : raw_json) (h : io json) :
  transform project pu tbl raw = Ok raw' →
  try_except (lift (blueprint_name raw')) JSONDecodeError h
  = lift (blueprint_name raw').
Proof.
  intros H. apply transform_dumps in H as [doc ->].
  unfold try_except, blueprint_name, lift. cbn [outcome loads mbind result_bind].
  destruct (getitem doc "spec") as [spec|e] eqn:Hspec.
  - cbn [mbind result_bind].
    destruct (getitem spec "name") as [name|e] eqn:Hname; [done|].
    destruct spec; cbn in Hname; try (by injection Hname as <-).
    destruct (_ !! _); [discriminate|]. by injection Hname as <-.
  - cbn [mbind result_bind].
    destruct doc; cbn in Hspec; try (by injection Hspec as <-).
    destruct (_ !! _); [discriminate|]. by injection Hspec as <-.
Qed.

(** A dictionary without [spec] raises [KeyError] on line 199, which the
    [except] of line 200 does not name. *)
Lemma import_blueprint_nameless (w : world) (o : options) (st : resolution)
    (blueprint : string) (m : gmap string json) :
  project o = "none" →
  read w blueprint = Dumped (JObj m) →
  m !! "spec" = None →
  import_blueprint w o st blueprint = IO [] (Raise KeyError).
Proof.
  intros Hp Hread Hspec.
  assert (blueprint_name
            (Dumped (JObj (delete "product_version" (delete "status" m))))
          = Raise KeyError) as Hname.
  { unfold blueprint_name. cbn [loads mbind result_bind getitem].
    by rewrite stripped_lookup_ne, Hspec by done. }
  unfold import_blueprint, transform.
  rewrite Hread, Hp, bool_decide_false by (by intros Hne).
  cbn [mbind result_bind]. rewrite remove_export_keys_obj, lift_bind.
  rewrite (try_except_other (lift (blueprint_name _)) _
             JSONDecodeError KeyError)
    by (split; [exact Hname|done]).
  unfold lift. by rewrite Hname.
Qed.

Lemma set_variable_absent (tbl : gmap string string) (var_dict : json)
    (nm : string) :
  getitem var_dict "name" = Ok (JStr nm) →
  tbl !! lower_string nm = None →
  set_variable tbl var_dict = Raise KeyError.
Proof.
  intros Hn Hv. unfold set_variable, table_get. rewrite Hn.
  cbn [mbind result_bind lower]. by rewrite Hv.
Qed.

Lemma set_variable_override (tbl : gmap string string)
    (m : gmap string json) (nm v : string) :
  m !! "name" = Some (JStr nm) →
  tbl !! lower_string nm = Some v →
  v ≠ "none" →
  set_variable tbl (JObj m) = Ok (JObj (<["value" := JStr v]> m)).
Proof.
  intros Hn Hv Hne. apply set_variable_Ok. exists m, nm, v.
  by rewrite bool_decide_true.
Qed.

(** A blueprint Prism Central accepts with an answer that holds no message
    list: the blueprint is posted, then line 227 raises [TypeError]. *)
Example accepted_blueprint_raises :
  import_blueprint
    (sample_world ["bp/a.json"] (Dumped (JObj plain_fields)) [entity "P" "U1"])
    (sample_options "P")
    {| project_found := Some true; project_uuid := Some (JStr "U1") |}
    "bp/a.json"
  = IO [Requested {| verb := "post"; host := "10.0.0.1";
                     api := "blueprints/import_json";
                     body := plain_transformed;
                     user := "admin"; pass := "secret" |}]
       (Raise TypeError).
Proof. vm_compute. reflexivity. Qed.

(** A blueprint Prism Central answers with a message list: the first
    message is the outcome line. *)
Example reported_blueprint_prints :
  import_blueprint
    {| glob := λ _, ["bp/a.json"];
       read := λ _, Dumped (JObj plain_fields);
       respond := λ _, Ok (JObj (<["message_list" :=
         JArr [JObj (<["message" := JStr "Name already in use"]> ∅)]]> ∅));
       difference := λ _, "1.0" |}
    (sample_options "P")
    {| project_found := Some true; project_uuid := Some (JStr "U1") |}
    "bp/a.json"
  = IO [Requested {| verb := "post"; host := "10.0.0.1";
                     api := "blueprints/import_json";
                     body := plain_transformed;
                     user := "admin"; pass := "secret" |};
        Printed "bp/a.json : Name already in use."]
       (Ok tt).
Proof. vm_compute. reflexivity. Qed.

(** The example of the specification: the Era blueprint bound to [U1]
    with [pe_vip] given. *)
Example era_blueprint_transformed :
  transform "P" (Some (JStr "U1")) sample_table
    (Dumped (JObj (era_fields [variable "PE_VIP" "old"])))
  = Ok (Dumped (JObj
      (<["metadata" := JObj (<["name" := JStr "EraServerDeployment-v1"]>
          (<["project_reference" := project_reference (JStr "U1")]> ∅))]>
      (<["spec" := JObj (<["name" := JStr "bp1"]>
          (<["resources" := JObj (<["service_definition_list" :=
              JArr [service [variable "PE_VIP" "10.0.0.5"]]]> ∅)]> ∅))]>
       ∅)))).
Proof. vm_compute. reflexivity. Qed.

(* ===================================================================== *)
(** ** The run at sample inputs *)
(* ===================================================================== *)

(** C1.  A run in the default mode (project ['none']) that finds a file:
    no request is made, and the run stops at line 148 with
    [UnboundLocalError] before any file is read. *)
Theorem default_mode_stops_before_files :
  main (sample_world ["bp/a.json"] (Dumped (JObj plain_fields)) [])
       (sample_options "none")
  = IO [] (Raise UnboundLocalError).
Proof. by apply default_mode_unbound. Qed.

(** C2.  A run that finds two files and the requested project: the project
    is listed and reported, then line 157 raises [TypeError]; no file is
    read and no outcome line is printed. *)
Theorem found_project_stops_before_files :
  main (sample_world ["bp/a.json"; "bp/b.json"] (Dumped (JObj plain_fields))
          [entity "P" "U1"])
       (sample_options "P")
  = IO [Requested (projects_request (sample_options "P"));
        Printed (nl ++ "ProjectP exists.")]
       (Raise TypeError).
Proof.
  rewrite (project_found_type_error _ _ (JStr "U1"));
    [reflexivity|done..|vm_compute; reflexivity].
Qed.

(** C3.  An entry whose name is not a key of the table raises [KeyError]
    on line 180, and with it the transformation of the blueprint. *)
Theorem unknown_variable_raises :
  set_variable sample_table (variable "ERA_VERSION" "2.0") = Raise KeyError
  ∧ transform "P" (Some (JStr "U1")) sample_table
      (Dumped (JObj (era_fields [variable "PE_VIP" "old";
                                 variable "ERA_VERSION" "2.0"])))
    = Raise KeyError.
Proof. split; vm_compute; reflexivity. Qed.

(** C4.  A file that is not JSON raises [JSONDecodeError] on line 187 (169
    with a project), and a dictionary without [spec] raises [KeyError] on
    line 199; in both cases nothing is printed and the exception leaves
    the loop. *)
Theorem unprocessable_file_unhandled :
  import_blueprint
    (sample_world ["bp/a.json"] (Unparsable "not json") [])
    (sample_options "none")
    {| project_found := None; project_uuid := None |} "bp/a.json"
  = IO [] (Raise JSONDecodeError)
  ∧ import_blueprint
      (sample_world ["bp/a.json"] (Unparsable "not json") [entity "P" "U1"])
      (sample_options "P")
      {| project_found := Some true; project_uuid := Some (JStr "U1") |}
      "bp/a.json"
    = IO [] (Raise JSONDecodeError)
  ∧ import_blueprint
      (sample_world ["bp/a.json"] (Dumped (JObj nameless_fields)) [])
      (sample_options "none")
      {| project_found := None; project_uuid := None |} "bp/a.json"
    = IO [] (Raise KeyError).
Proof.
  split; [|split].
  - by apply (import_blueprint_unparsable _ _ _ _ "not json").
  - by apply (import_blueprint_unparsable _ _ _ _ "not json").
  - by apply (import_blueprint_nameless _ _ _ _ nameless_fields).
Qed.

(** C5, as stated, fails: with no file found and a project that is not
    listed, the run does not fail for want of the project. *)
Lemma project_check_first_refuted :
  glob (sample_world [] (Dumped (JObj plain_fields)) [entity "P" "U1"])
       (rstrip_slash (directory (sample_options "ghost")) ++ "/*.json") = []
  ∧ project (sample_options "ghost") ≠ "none"
  ∧ scan_projects (project (sample_options "ghost")) [entity "P" "U1"]
      {| project_found := Some false; project_uuid := None |}
    = Ok {| project_found := Some false; project_uuid := None |}
  ∧ ¬ fails_project_not_found (sample_options "ghost")
        (main (sample_world [] (Dumped (JObj plain_fields)) [entity "P" "U1"])
              (sample_options "ghost")).
Proof.
  split; [done|]. split; [done|]. split; [by vm_compute|].
  intros [Hout _]. vm_compute in Hout. discriminate Hout.
Qed.

(** C5, amended.  The file count is checked first: when no file is found
    the run makes no request, whatever project was asked for, prints the
    "nothing to import" line and the closing line, and ends normally. *)
Theorem empty_directory_skips_project_check (w : world) (o : options) :
  cluster_ip o ≠ "" → username o ≠ "" → password o ≠ "" →
  glob w (rstrip_slash (directory o) ++ "/*.json") = [] →
  main w o
  = IO [Printed (nl ++ "No JSON files found in" ++ directory o
                    ++ " ... nothing to import!");
        Printed (nl ++ "Finished!" ++ nl)]
       (Ok tt).
Proof.
  intros H1 H2 H3 Hfiles.
  by rewrite main_credentials, import_all_empty by done.
Qed.

Lemma empty_directory_skips_project_check_witness :
  main (sample_world [] (Dumped (JObj plain_fields)) [entity "P" "U1"])
       (sample_options "ghost")
  = IO [Printed (nl ++ "No JSON files found in" ++ "bp/"
                    ++ " ... nothing to import!");
        Printed (nl ++ "Finished!" ++ nl)]
       (Ok tt).
Proof.
  apply (empty_directory_skips_project_check
           (sample_world [] (Dumped (JObj plain_fields)) [entity "P" "U1"])
           (sample_options "ghost")); done.
Defined.

(* ===================================================================== *)
(** ** The transformation and the resolution at sample inputs *)
(* ===================================================================== *)

Lemma export_keys_removed_witness :
  (∃ m', transform "P" (Some (JStr "U1")) sample_table
           (Dumped (JObj plain_fields)) = Ok (Dumped (JObj m'))
         ∧ m' !! "status" = None
         ∧ m' !! "product_version" = None
         ∧ ("P" = "none" →
            m' = delete "product_version" (delete "status" plain_fields)))
  ∧ (∃ m', transform "none" None sample_table
             (Dumped (JObj plain_fields)) = Ok (Dumped (JObj m'))
           ∧ m' !! "status" = None
           ∧ m' !! "product_version" = None
           ∧ ("none" = "none" →
              m' = delete "product_version" (delete "status" plain_fields))).
Proof.
  split.
  - apply (export_keys_removed "P" (Some (JStr "U1")) sample_table
             plain_fields).
    intros _. eexists. vm_compute. reflexivity.
  - apply (export_keys_removed "none" None sample_table plain_fields).
    intros Hne. by destruct Hne.
Defined.

Lemma project_reference_exact_witness :
  ∃ m' md', plain_transformed = Dumped (JObj m')
            ∧ m' !! "metadata" = Some (JObj md')
            ∧ md' !! "project_reference"
              = Some (project_reference (JStr "U1")).
Proof.
  assert ("P" ≠ "none") as Hp by done.
  apply (proj1 (project_reference_exact "P" (JStr "U1") sample_table Hp)
           (Dumped (JObj plain_fields)) plain_transformed).
  vm_compute. reflexivity.
Defined.

Lemma transform_idempotent_witness :
  transform "P" (Some (JStr "U1")) sample_table era_transformed
  = Ok era_transformed.
Proof.
  apply (transform_idempotent "P" (Some (JStr "U1")) sample_table
           (Dumped (JObj (era_fields [variable "PE_VIP" "old";
                                      variable "CTR_NAME" "kept"])))
           era_transformed).
  vm_compute. reflexivity.
Defined.

Lemma last_match_wins_witness :
  resolve_project
    (sample_world ["bp/a.json"] (Dumped (JObj plain_fields))
       ([entity "P" "U1"; entity "Q" "U9"]
        ++ entity "P" "U2" :: [entity "R" "U3"]))
    (sample_options "P")
  = IO [Requested (projects_request (sample_options "P"))]
       (Ok {| project_found := Some true;
              project_uuid := Some (JStr "U2") |}).
Proof.
  apply (last_match_wins _ (sample_options "P")
           (JObj (<["entities" := JArr ([entity "P" "U1"; entity "Q" "U9"]
                     ++ entity "P" "U2" :: [entity "R" "U3"])]> ∅))
           [entity "P" "U1"; entity "Q" "U9"] [entity "R" "U3"]
           (entity "P" "U2") (JStr "U2")
           {| project_found := Some true; project_uuid := Some (JStr "U1") |}).
  - done.
  - reflexivity.
  - vm_compute. reflexivity.
  - vm_compute. reflexivity.
  - vm_compute. reflexivity.
  - vm_compute. reflexivity.
  - constructor; [|constructor]. exists (JStr "R"). split; reflexivity.
Defined.

(** The sentinel at a sample input: [ctr_name] given as ['none'] leaves
    the entry [CTR_NAME] as it was. *)
Example sentinel_sample :
  set_variables (<["ctr_name" := "none"]> sample_table)
    (JArr [variable "PE_VIP" "old"; variable "CTR_NAME" "kept"])
  = Ok (JArr [variable "PE_VIP" "10.0.0.5"; variable "CTR_NAME" "kept"]).
Proof. vm_compute. reflexivity. Qed.

(* ===================================================================== *)
(** ** The run as a whole *)
(* ===================================================================== *)

Lemma requests_app (t1 t2 : list event) :
  requests (t1 ++ t2) = (requests t1 ++ requests t2)%list.
Proof.
  induction t1 as [|[line|rq] t1 IH]; cbn [app requests]; [done|done|].
  by rewrite IH.
Qed.

(** The project check as one request (or none) and a pure scan. *)
Lemma resolve_project_eq (w : world) (o : options) :
  resolve_project w o
  = if bool_decide (project o ≠ "none")
    then IO [Requested (projects_request o)]
            (results ← respond w (projects_request o);
             entities ← getitem results "entities";
             items ← iter entities;
             scan_projects (project o) items
               {| project_found := Some false; project_uuid := None |})
    else IO [] (Ok {| project_found := None; project_uuid := None |}).
Proof.
  unfold resolve_project. case_bool_decide; [|done].
  unfold get_info, lift, mbind at 1, io_bind. cbn [outcome trace].
  by destruct (respond w (projects_request o)).
Qed.

(** A run that finds a file, by the outcome of the project check: every
    case ends before the loop of line 160. *)
Lemma main_with_files (w : world) (o : options) (t : list event)
    (r : result resolution) :
  cluster_ip o ≠ "" → username o ≠ "" → password o ≠ "" →
  glob w (pattern o) ≠ [] →
  resolve_project w o = IO t r →
  main w o
  = match r with
    | Raise e => IO t (Raise e)
    | Ok st =>
        match project_found st with
        | None => IO t (Raise UnboundLocalError)
        | Some true =>
            IO (t ++ [Printed (nl ++ "Project" ++ project o ++ " exists.")])%list
               (Raise TypeError)
        | Some false =>
            IO (t ++ [Printed (nl ++ "Project " ++ project o
                         ++ " was not found.  Please check the name and retry.")])%list
               (Raise SystemExit)
        end
    end.
Proof.
  intros H1 H2 H3 Hfiles Hres. rewrite main_credentials by done.
  unfold import_all. fold (pattern o).
  destruct (glob w (pattern o)) as [|f files]; [done|].
  rewrite bool_decide_true by (cbn; lia). rewrite Hres.
  destruct r as [[[[|]|] pu]|e]; cbn; by rewrite ?app_nil_r.
Qed.

(** Lines 123-128: an empty address, user name or password ends the run
    before anything else is done. *)
Lemma main_missing_credentials (w : world) (o : options) :
  cluster_ip o = "" ∨ username o = "" ∨ password o = "" →
  ∃ msg, main w o = IO [] (Raise (Exception msg)).
Proof.
  intros H. unfold main. repeat case_bool_decide; eauto.
  by destruct H as [|[|]].
Qed.

(** X1.  A run ends normally exactly when the address, the user name and
    the password are not empty and no file is found: every run that finds
    a file ends with an exception. *)
Theorem main_returns_iff (w : world) (o : options) :
  outcome (main w o) = Ok tt ↔
  cluster_ip o ≠ "" ∧ username o ≠ "" ∧ password o ≠ ""
  ∧ glob w (pattern o) = [].
Proof.
  split.
  - intros Hout.
    assert (¬ (cluster_ip o = "" ∨ username o = "" ∨ password o = ""))
      as Hcred.
    { intros [msg Hm]%(main_missing_credentials w). by rewrite Hm in Hout. }
    assert (cluster_ip o ≠ "" ∧ username o ≠ "" ∧ password o ≠ "")
      as (H1 & H2 & H3) by tauto.
    repeat split; try done.
    destruct (decide (glob w (pattern o) = [])) as [|Hfiles]; [done|].
    destruct (resolve_project w o) as [t r] eqn:Hres.
    rewrite (main_with_files w o t r) in Hout by done.
    by destruct r as [[[[|]|] pu]|e].
  - intros (H1 & H2 & H3 & Hfiles).
    by rewrite main_credentials, import_all_empty by done.
Qed.

Lemma main_returns_iff_witness :
  outcome (main (sample_world [] (Dumped (JObj plain_fields)) [])
                (sample_options "ghost")) = Ok tt.
Proof.
  apply (main_returns_iff (sample_world [] (Dumped (JObj plain_fields)) [])
           (sample_options "ghost")).
  done.
Defined.

(** X2.  A run asks Prism Central for the list of projects once when the
    credentials are given, a file is found and a project is requested,
    and asks nothing otherwise; no run posts a blueprint. *)
Theorem one_query_at_most (w : world) (o : options) :
  requests (trace (main w o))
  = if bool_decide (cluster_ip o ≠ "" ∧ username o ≠ "" ∧ password o ≠ ""
                    ∧ glob w (pattern o) ≠ [] ∧ project o ≠ "none")
    then [projects_request o] else [].
Proof.
  destruct (decide (cluster_ip o = "" ∨ username o = "" ∨ password o = ""))
    as [Hcred|Hcred].
  { rewrite bool_decide_false by tauto.
    destruct (main_missing_credentials w o Hcred) as [msg ->]. done. }
  assert (cluster_ip o ≠ "" ∧ username o ≠ "" ∧ password o ≠ "")
    as (H1 & H2 & H3) by tauto.
  destruct (decide (glob w (pattern o) = [])) as [Hfiles|Hfiles].
  { rewrite bool_decide_false by (by intros (_ & _ & _ & ? & _)).
    by rewrite main_credentials, import_all_empty by done. }
  pose proof (resolve_project_eq w o) as Hres.
  case_bool_decide as Hp.
  - rewrite bool_decide_true by done.
    rewrite (main_with_files w o _ _ H1 H2 H3 Hfiles Hres).
    destruct (_ ≫= _) as [[[[|]|] pu]|e]; cbn [trace]; by rewrite ?requests_app.
  - rewrite bool_decide_false by (by intros (_ & _ & _ & _ & ?)).
    by rewrite (main_with_files w o _ _ H1 H2 H3 Hfiles Hres).
Qed.



(** X4.  An exception raised by the listing request of line 141, the
    [JSONDecodeError] of an unreadable answer included, is not handled:
    the run ends with it after that one request, with nothing printed. *)
Theorem listing_failure_propagates (w : world) (o : options) (e : exn) :
  cluster_ip o ≠ "" → username o ≠ "" → password o ≠ "" →
  glob w (pattern o) ≠ [] →
  project o ≠ "none" →
  respond w (projects_request o) = Raise e →
  main w o = IO [Requested (projects_request o)] (Raise e).
Proof.
  intros H1 H2 H3 Hfiles Hp Hr.
  pose proof (resolve_project_eq w o) as Hres.
  rewrite bool_decide_true, Hr in Hres by done.
  by rewrite (main_with_files w o _ _ H1 H2 H3 Hfiles Hres).
Qed.

Lemma listing_failure_propagates_witness :
  main {| glob := λ _, ["bp/a.json"];
          read := λ _, Dumped (JObj plain_fields);
          respond := λ _, Raise JSONDecodeError;
          difference := λ _, "1.0" |}
       (sample_options "P")
  = IO [Requested (projects_request (sample_options "P"))]
       (Raise JSONDecodeError).
Proof.
  apply (listing_failure_propagates
           {| glob := λ _, ["bp/a.json"];
              read := λ _, Dumped (JObj plain_fields);
              respond := λ _, Raise JSONDecodeError;
              difference := λ _, "1.0" |}
           (sample_options "P") JSONDecodeError); done.
Defined.

Lemma check_project_no_status (project : string) (st : resolution)
    (fields : gmap string json) :
  fields !! "status" = None →
  check_project project st (JObj fields) = Raise KeyError.
Proof. intros H. unfold check_project. cbn [getitem]. by rewrite H. Qed.

(** X5.  A listed entity without a [status] key ends the run with
    [KeyError] right after the listing request, wherever it stands in the
    listing and whatever the entities before it matched. *)
Theorem malformed_entity_aborts (w : world) (o : options) (results : json)
    (before after : list json) (fields : gmap string json)
    (st : resolution) :
  cluster_ip o ≠ "" → username o ≠ "" → password o ≠ "" →
  glob w (pattern o) ≠ [] →
  project o ≠ "none" →
  respond w (projects_request o) = Ok results →
  getitem results "entities" = Ok (JArr (before ++ JObj fields :: after)) →
  scan_projects (project o) before
    {| project_found := Some false; project_uuid := None |} = Ok st →
  fields !! "status" = None →
  main w o = IO [Requested (projects_request o)] (Raise KeyError).
Proof.
  intros H1 H2 H3 Hfiles Hp Hr He Hbefore Hbad.
  pose proof (resolve_project_eq w o) as Hres.
  rewrite bool_decide_true, Hr in Hres by done.
  cbn [mbind result_bind] in Hres. rewrite He in Hres.
  cbn [mbind result_bind iter] in Hres.
  rewrite scan_projects_app, Hbefore in Hres.
  cbn [mbind result_bind scan_projects] in Hres.
  rewrite (check_project_no_status _ _ _ Hbad) in Hres.
  by rewrite (main_with_files w o _ _ H1 H2 H3 Hfiles Hres).
Qed.

Lemma malformed_entity_aborts_witness :
  main (sample_world ["bp/a.json"] (Dumped (JObj plain_fields))
          ([entity "P" "U1"]
           ++ JObj (<["metadata" := JObj (<["uuid" := JStr "U2"]> ∅)]> ∅)
              :: [entity "Q" "U3"]))
       (sample_options "P")
  = IO [Requested (projects_request (sample_options "P"))] (Raise KeyError).
Proof.
  apply (malformed_entity_aborts
           (sample_world ["bp/a.json"] (Dumped (JObj plain_fields))
              ([entity "P" "U1"]
               ++ JObj (<["metadata" := JObj (<["uuid" := JStr "U2"]> ∅)]> ∅)
                  :: [entity "Q" "U3"]))
           (sample_options "P")
           (JObj (<["entities" := JArr ([entity "P" "U1"]
               ++ JObj (<["metadata" := JObj (<["uuid" := JStr "U2"]> ∅)]> ∅)
                  :: [entity "Q" "U3"])]> ∅))
           [entity "P" "U1"] [entity "Q" "U3"]
           (<["metadata" := JObj (<["uuid" := JStr "U2"]> ∅)]> ∅)
           {| project_found := Some true; project_uuid := Some (JStr "U1") |});
    [done|done|done|done|done|reflexivity|vm_compute; reflexivity
    |vm_compute; reflexivity|reflexivity].
Defined.

(* ===================================================================== *)
(** ** The options *)
(* ===================================================================== *)

Lemma lookup_set_if_eq (k : string) (x : option string)
    (d : gmap string string) :
  d !! k = Some "none" → set_if k x d !! k = Some (or_else x "none").
Proof.
  intros Hk. destruct x as [[|c s]|]; cbn [set_if or_else]; try done.
  apply lookup_insert_eq.
Qed.

Lemma default_variables_other (k : string) :
  variable_arg
    {| arg_pc_ip := ""; arg_username := None; arg_password := None;
       arg_directory := None; arg_project := None; arg_pe_vip := None;
       arg_ctr_uuid := None; arg_ctr_name := None; arg_clstr_name := None;
       arg_era_id := None; arg_network_name := None;
       arg_network_vlan := None |} k = None →
  default_variables !! k = None.
Proof.
  unfold variable_arg, default_variables. intros H.
  repeat case_decide; try discriminate H.
  by rewrite !lookup_insert_ne, lookup_empty by done.
Qed.

(** The table [get_options] builds, key by key. *)
Lemma get_options_table (a : args) (typed_username typed_password : string)
    (k : string) :
  dict_variables (get_options a typed_username typed_password) !! k
  = (λ x, or_else x "none") <$> variable_arg a k.
Proof.
  unfold get_options. cbn [dict_variables].
  destruct (variable_arg a k) as [x|] eqn:Hk.
  - unfold variable_arg in Hk.
    repeat match type of Hk with
           | context [decide (k = ?key)] =>
               destruct (decide (k = key)) as [->|?];
               [injection Hk as <-;
                rewrite ?lookup_set_if_ne by done;
                rewrite lookup_set_if_eq;
                [done|by rewrite ?lookup_set_if_ne by done]|]
           end.
    discriminate Hk.
  - assert (default_variables !! k = None) as Hdef.
    { apply default_variables_other. unfold variable_arg in *.
      by repeat case_decide. }
    unfold variable_arg in Hk. repeat case_decide; try discriminate Hk.
    by rewrite !lookup_set_if_ne by done.
Qed.

Lemma or_else_nonempty (x : option string) (d : string) :
  d ≠ "" → or_else x d ≠ "".
Proof. intros Hd. by destruct x as [[|c s]|]. Qed.

(** X6.  The table [get_options] builds has the seven keys of line 86 and
    no other, and each key holds the value of its own option when that
    option was given a non-empty string, and ['none'] otherwise. *)
Theorem table_key_by_key (a : args) (typed_username typed_password : string)
    (k v : string) :
  dict_variables (get_options a typed_username typed_password) !! k = Some v
  ↔ ∃ x, variable_arg a k = Some x ∧ v = or_else x "none".
Proof.
  rewrite get_options_table. destruct (variable_arg a k) as [x|]; cbn.
  - split; [intros [= <-]; eauto|by intros (? & [= <-] & ->)].
  - split; [done|by intros (? & ? & _)].
Qed.

(** X7.  [get_options] never yields an empty directory, project or table
    value, and yields an empty user name or password only when nothing
    was typed at the prompt. *)
Theorem options_never_empty (a : args)
    (typed_username typed_password : string) :
  let o := get_options a typed_username typed_password in
  directory o ≠ "" ∧ project o ≠ ""
  ∧ (∀ k v, dict_variables o !! k = Some v → v ≠ "")
  ∧ (username o = "" → typed_username = "")
  ∧ (password o = "" → typed_password = "").
Proof.
  cbn zeta. repeat split.
  - by apply or_else_nonempty.
  - by apply or_else_nonempty.
  - intros k v Hk. rewrite get_options_table in Hk.
    destruct (variable_arg a k) as [x|]; [|done].
    injection Hk as <-. by apply or_else_nonempty.
  - unfold get_options. cbn [username].
    by destruct (arg_username a) as [[|c s]|].
  - unfold get_options. cbn [password].
    by destruct (arg_password a) as [[|c s]|].
Qed.

(* ===================================================================== *)
(** ** The directory *)
(* ===================================================================== *)

Lemma append_cons (c : ascii) (x y : string) :
  String c x ++ y = String c (x ++ y).
Proof. reflexivity. Qed.

Lemma length_append (x t : string) :
  String.length (x ++ t) = String.length x + String.length t.
Proof.
  induction x as [|c x IH]; [done|].
  rewrite append_cons. cbn [String.length]. by rewrite IH.
Qed.

Lemma append_assoc (x y t : string) : (x ++ y) ++ t = x ++ (y ++ t).
Proof.
  induction x as [|c x IH]; [done|]. rewrite !append_cons. by f_equal.
Qed.

Lemma append_cancel_r (x y t : string) : x ++ t = y ++ t → x = y.
Proof.
  revert y. induction x as [|c x IH]; intros [|c' y] H.
  - done.
  - apply (f_equal String.length) in H.
    rewrite !length_append in H. cbn [String.length] in H. lia.
  - apply (f_equal String.length) in H.
    rewrite !length_append in H. cbn [String.length] in H. lia.
  - rewrite !append_cons in H. injection H as -> H. f_equal. by apply IH.
Qed.

Lemma rstrip_slash_app (d : string) : rstrip_slash (d ++ "/") = rstrip_slash d.
Proof.
  induction d as [|c d IH]; [done|].
  rewrite append_cons. cbn [rstrip_slash]. by rewrite IH.
Qed.

Lemma rstrip_slash_no_slash (d s : string) : rstrip_slash d ≠ s ++ "/".
Proof.
  revert s. induction d as [|c d IH]; intros s; cbn [rstrip_slash].
  - by destruct s.
  - destruct (rstrip_slash d) as [|c' r] eqn:Hr.
    + destruct (Ascii.eqb c "/") eqn:Hc; [by destruct s|].
      destruct s as [|c0 s].
      * intros [= ->]. by rewrite Ascii.eqb_refl in Hc.
      * rewrite append_cons. intros [= _ Hs]. by destruct s.
    + destruct s as [|c0 s]; [done|]. rewrite append_cons.
      intros [= -> Hs]. by apply (IH s).
Qed.

Lemma rstrip_slash_id (d : string) :
  (∀ s, d ≠ s ++ "/") → rstrip_slash d = d.
Proof.
  induction d as [|c d IH]; [done|]. intros Hd. cbn [rstrip_slash].
  rewrite IH.
  - destruct d as [|c' d]; [|done].
    destruct (Ascii.eqb c "/") eqn:Hc; [|done].
    apply Ascii.eqb_eq in Hc as ->. by destruct (Hd "").
  - intros s ->. by apply (Hd (String c s)).
Qed.

(** X8.  The directory is listed under the same pattern with or without
    trailing slashes: the pattern of line 132 never holds a doubled slash
    before [*.json], and a directory without a trailing slash is used as
    given. *)
Theorem trailing_slashes_ignored (o o' : options) :
  directory o' = directory o ++ "/" →
  pattern o' = pattern o
  ∧ (∀ s, pattern o ≠ s ++ "//*.json")
  ∧ ((∀ s, directory o ≠ s ++ "/") → pattern o = directory o ++ "/*.json").
Proof.
  intros Hd. unfold pattern. rewrite Hd, rstrip_slash_app. repeat split.
  - intros s Hs. apply (rstrip_slash_no_slash (directory o) s).
    apply (append_cancel_r _ _ "/*.json"). by rewrite Hs, append_assoc.
  - intros Hno. by rewrite rstrip_slash_id.
Qed.

Lemma trailing_slashes_ignored_witness :
  pattern (sample_options "P")
  = pattern {| cluster_ip := "10.0.0.1"; username := "admin";
               password := "secret"; directory := "bp";
               dict_variables := sample_table; project := "P" |}
  ∧ (∀ s, pattern {| cluster_ip := "10.0.0.1"; username := "admin";
                     password := "secret"; directory := "bp";
                     dict_variables := sample_table; project := "P" |}
          ≠ s ++ "//*.json")
  ∧ ((∀ s, "bp" ≠ s ++ "/") →
     pattern {| cluster_ip := "10.0.0.1"; username := "admin";
                password := "secret"; directory := "bp";
                dict_variables := sample_table; project := "P" |}
     = "bp" ++ "/*.json").
Proof.
  apply (trailing_slashes_ignored
           {| cluster_ip := "10.0.0.1"; username := "admin";
              password := "secret"; directory := "bp";
              dict_variables := sample_table; project := "P" |}
           (sample_options "P")).
  reflexivity.
Defined.

(* ===================================================================== *)
(** ** More on the transformation *)
(* ===================================================================== *)

(** X9.  With a project, a blueprint whose name does not hold
    [EraServerDeployment] is bound and stripped and nothing else: whatever
    the table holds, no variable of it is touched. *)
Theorem plain_blueprint_only_bound (project : string) (U : json)
    (tbl : gmap string string) (m md : gmap string json) (nm : string) :
  project ≠ "none" →
  m !! "metadata" = Some (JObj md) →
  md !! "name" = Some (JStr nm) →
  is_substring "EraServerDeployment" nm = false →
  transform project (Some U) tbl (Dumped (JObj m))
  = Ok (Dumped (JObj (delete "product_version"
                        (delete "status" (bound U m md))))).
Proof.
  intros Hp Hm Hnm Hera. unfold transform.
  rewrite bool_decide_true by done.
  rewrite (add_project_plain U tbl m md nm Hm Hnm Hera).
  cbn [mbind result_bind]. apply remove_export_keys_obj.
Qed.

Lemma plain_blueprint_only_bound_witness :
  transform "P" (Some (JStr "U1")) sample_table
    (Dumped (JObj (<["metadata" := JObj (<["name" := JStr "web"]> ∅)]>
                  (era_fields [variable "PE_VIP" "old"]))))
  = Ok (Dumped (JObj (delete "product_version" (delete "status"
         (bound (JStr "U1")
            (<["metadata" := JObj (<["name" := JStr "web"]> ∅)]>
               (era_fields [variable "PE_VIP" "old"]))
            (<["name" := JStr "web"]> ∅)))))).
Proof.
  apply (plain_blueprint_only_bound "P" (JStr "U1") sample_table
           (<["metadata" := JObj (<["name" := JStr "web"]> ∅)]>
              (era_fields [variable "PE_VIP" "old"]))
           (<["name" := JStr "web"]> ∅) "web");
    [done|vm_compute; reflexivity|vm_compute; reflexivity|reflexivity].
Defined.

(** X10.  The injection loop keeps the number and the order of the
    entries, and in every entry every key other than [value]. *)
Theorem injection_keeps_entries (tbl : gmap string string)
    (l l' : list json) :
  set_variables tbl (JArr l) = Ok (JArr l') →
  List.length l' = List.length l
  ∧ ∀ (i : nat) (e e' : json) (k : string),
      l !! i = Some e → l' !! i = Some e' → k ≠ "value" →
      getitem e' k = getitem e k.
Proof.
  intros H. cbn [set_variables] in H.
  apply fmap_Ok in H as (k0 & H & [= ->]). apply mapM_Ok_1 in H. split.
  - symmetry. by eapply Forall2_length.
  - intros i e e' k Hi Hi' Hk.
    destruct (Forall2_lookup_l _ _ _ _ _ H Hi) as (e0 & Hi0 & He).
    rewrite Hi' in Hi0. injection Hi0 as <-.
    apply set_variable_Ok in He as (m & nm & v & -> & _ & _ & ->).
    case_bool_decide; [|done]. cbn [getitem].
    by rewrite lookup_insert_ne.
Qed.

Lemma injection_keeps_entries_witness :
  List.length [variable "PE_VIP" "10.0.0.5"; variable "CTR_NAME" "kept"]
  = List.length [variable "PE_VIP" "old"; variable "CTR_NAME" "kept"]
  ∧ ∀ (i : nat) (e e' : json) (k : string),
      [variable "PE_VIP" "old"; variable "CTR_NAME" "kept"] !! i = Some e →
      [variable "PE_VIP" "10.0.0.5"; variable "CTR_NAME" "kept"] !! i
      = Some e' →
      k ≠ "value" → getitem e' k = getitem e k.
Proof.
  apply (injection_keeps_entries sample_table).
  vm_compute. reflexivity.
Defined.

(** X11.  Injection rewrites the first service definition only: the
    service definitions after the first are left as they were. *)
Theorem injection_first_service_only (tbl : gmap string string)
    (parsed parsed' first : json) (others : list json) :
  inject_variables tbl parsed = Ok parsed' →
  service_definition_list parsed = Ok (JArr (first :: others)) →
  ∃ first', at_key "variable_list" (set_variables tbl) first = Ok first'
            ∧ service_definition_list parsed'
              = Ok (JArr (first' :: others)).
Proof.
  unfold inject_variables, service_definition_list. intros H Hsdl.
  apply at_key_Ok in H as (m & s & s' & -> & Hs & H & ->).
  apply at_key_Ok in H as (ms & r & r' & -> & Hr & H & ->).
  apply at_key_Ok in H as (mr & v & v' & -> & Hv & H & ->).
  cbn [getitem mbind result_bind] in Hsdl. rewrite Hs in Hsdl.
  cbn [getitem mbind result_bind] in Hsdl. rewrite Hr in Hsdl.
  cbn [getitem mbind result_bind] in Hsdl. rewrite Hv in Hsdl.
  injection Hsdl as ->.
  apply at_first_Ok in H
    as [(v0 & first' & rest & [= <- <-] & Hf & ->)|(c & s0 & ? & [=] & _)].
  exists first'. split; [done|].
  cbn [getitem mbind result_bind]. rewrite lookup_insert_eq.
  cbn [getitem mbind result_bind]. rewrite lookup_insert_eq.
  cbn [getitem mbind result_bind]. by rewrite lookup_insert_eq.
Qed.

Lemma service_definition_list_bound (U : json) (m md : gmap string json) :
  service_definition_list (JObj (bound U m md))
  = service_definition_list (JObj m).
Proof.
  unfold service_definition_list, bound. cbn [getitem].
  by rewrite lookup_insert_ne.
Qed.

(** X12.  With a project, an Era blueprint whose list of service
    definitions is empty makes the transformation raise [IndexError]
    (line 176 takes element 0). *)
Theorem era_without_service_raises (project : string) (U : json)
    (tbl : gmap string string) (m md : gmap string json) (nm : string) :
  project ≠ "none" →
  m !! "metadata" = Some (JObj md) →
  md !! "name" = Some (JStr nm) →
  is_substring "EraServerDeployment" nm = true →
  service_definition_list (JObj m) = Ok (JArr []) →
  transform project (Some U) tbl (Dumped (JObj m)) = Raise IndexError.
Proof.
  intros Hp Hm Hnm Hera Hsdl.
  rewrite <- (service_definition_list_bound U m md) in Hsdl.
  assert (inject_variables tbl (JObj (bound U m md)) = Raise IndexError)
    as Hinj.
  { unfold service_definition_list in Hsdl. unfold inject_variables, at_key.
    destruct (getitem (JObj (bound U m md)) "spec") as [s|]; [|done].
    cbn [mbind result_bind] in *.
    destruct (getitem s "resources") as [r|]; [|done].
    cbn [mbind result_bind] in *. by rewrite Hsdl. }
  unfold transform. rewrite bool_decide_true by done.
  unfold add_project. cbn [loads mbind result_bind].
  rewrite (bind_project_obj U m md Hm).
  unfold bound at 1. cbn [mbind result_bind getitem].
  rewrite lookup_insert_eq. cbn [mbind result_bind getitem].
  rewrite lookup_insert_ne by done. rewrite Hnm.
  cbn [mbind result_bind contains]. rewrite Hera.
  cbn [mbind result_bind]. fold (bound U m md). by rewrite Hinj.
Qed.

Lemma era_without_service_raises_witness :
  transform "P" (Some (JStr "U1")) sample_table
    (Dumped (JObj
       (<["metadata" := JObj (<["name" := JStr "EraServerDeployment"]> ∅)]>
       (<["spec" := JObj (<["name" := JStr "bp1"]>
           (<["resources" := JObj (<["service_definition_list" :=
               JArr []]> ∅)]> ∅))]> ∅))))
  = Raise IndexError.
Proof.
  apply (era_without_service_raises "P" (JStr "U1") sample_table _
           (<["name" := JStr "EraServerDeployment"]> ∅)
           "EraServerDeployment");
    [done|vm_compute; reflexivity|vm_compute; reflexivity
    |vm_compute; reflexivity|vm_compute; reflexivity].
Defined.

(** X13.  From the command line to the entry: an option given a value
    other than the empty string and ['none'] is written to an entry whose
    name, in whatever mix of upper and lower case, lower-cases to the key
    of that option. *)
Theorem option_reaches_entry (a : args)
    (typed_username typed_password : string) (m : gmap string json)
    (nm v : string) :
  m !! "name" = Some (JStr nm) →
  variable_arg a (lower_string nm) = Some (Some v) →
  v ≠ "" → v ≠ "none" →
  set_variable (dict_variables (get_options a typed_username typed_password))
    (JObj m)
  = Ok (JObj (<["value" := JStr v]> m)).
Proof.
  intros Hn Harg Hv Hnone. apply set_variable_Ok. exists m, nm, v.
  rewrite get_options_table, Harg. cbn.
  rewrite bool_decide_true by done. repeat split; try done.
  by destruct v.
Qed.

Lemma option_reaches_entry_witness :
  set_variable
    (dict_variables
       (get_options
          {| arg_pc_ip := "10.0.0.1"; arg_username := None;
             arg_password := None; arg_directory := None;
             arg_project := Some "P"; arg_pe_vip := Some "10.0.0.5";
             arg_ctr_uuid := None; arg_ctr_name := None;
             arg_clstr_name := None; arg_era_id := None;
             arg_network_name := None; arg_network_vlan := None |}
          "admin" "secret"))
    (JObj (<["name" := JStr "Pe_Vip"]> (<["value" := JStr "old"]> ∅)))
  = Ok (JObj (<["value" := JStr "10.0.0.5"]>
               (<["name" := JStr "Pe_Vip"]> (<["value" := JStr "old"]> ∅)))).
Proof.
  apply (option_reaches_entry _ "admin" "secret" _ "Pe_Vip" "10.0.0.5");
    [vm_compute; reflexivity|vm_compute; reflexivity|done|done].
Defined.

Lemma injection_first_service_only_witness :
  ∃ first',
    at_key "variable_list" (set_variables sample_table)
      (service [variable "PE_VIP" "old"]) = Ok first'
    ∧ service_definition_list
        (JObj (<["spec" := JObj (<["resources" := JObj
           (<["service_definition_list" :=
               JArr [service [variable "PE_VIP" "10.0.0.5"];
                     service [variable "PE_VIP" "second"]]]> ∅)]> ∅)]> ∅))
      = Ok (JArr [first'; service [variable "PE_VIP" "second"]]).
Proof.
  apply (injection_first_service_only sample_table
           (JObj (<["spec" := JObj (<["resources" := JObj
              (<["service_definition_list" :=
                  JArr [service [variable "PE_VIP" "old"];
                        service [variable "PE_VIP" "second"]]]> ∅)]> ∅)]> ∅)));
    vm_compute; reflexivity.
Defined.

(* ===================================================================== *)
(** ** The loop over the files (lines 160-230) *)
(* ===================================================================== *)

(** The outcome line, by what the answer holds under
    [message_list[0].message]. *)
Lemma outcome_message_eq (w : world) (blueprint : string) (answer : json) :
  outcome_message w blueprint answer
  = match first_message answer with
    | Ok (JStr msg) => IO [] (Ok ((blueprint ++ " : ") ++ msg ++ "."))
    | Ok _ => IO [] (Raise TypeError)
    | Raise KeyError => IO [] (Raise TypeError)
    | Raise e => IO [] (Raise e)
    end.
Proof.
  unfold outcome_message, first_message, try_except, lift.
  cbn [outcome trace].
  destruct (getitem answer "message_list") as [ml|e];
    [|by destruct e].
  cbn [mbind result_bind].
  destruct (getitem0 ml) as [first|e]; [|by destruct e].
  cbn [mbind result_bind].
  destruct (getitem first "message") as [message|e]; [|by destruct e].
  cbn [mbind result_bind].
  destruct message; try done.
  cbn [concat mbind result_bind]. by rewrite append_assoc.
Qed.

Lemma try_except_lift_Ok {A} (a : A) (E : exn) (h : io A) :
  try_except (lift (Ok a)) E h = lift (Ok a).
Proof. reflexivity. Qed.

(** One file whose content transforms to [raw], a text with a blueprint
    name: the blueprint is posted, and the rest depends on the answer. *)
Lemma import_blueprint_posted (w : world) (o : options) (st : resolution)
    (blueprint : string) (raw : raw_json) (n : json) :
  transform (project o) (project_uuid st) (dict_variables o)
    (read w blueprint) = Ok raw →
  blueprint_name raw = Ok n →
  import_blueprint w o st blueprint
  = match respond w (upload_request o raw) with
    | Ok answer =>
        match first_message answer with
        | Ok (JStr msg) =>
            IO [Requested (upload_request o raw);
                Printed ((blueprint ++ " : ") ++ msg ++ ".")] (Ok tt)
        | Ok _ => IO [Requested (upload_request o raw)] (Raise TypeError)
        | Raise KeyError =>
            IO [Requested (upload_request o raw)] (Raise TypeError)
        | Raise e => IO [Requested (upload_request o raw)] (Raise e)
        end
    | Raise JSONDecodeError =>
        IO [Requested (upload_request o raw);
            Printed (blueprint ++ ": No processable JSON response available.")]
           (Raise SystemExit)
    | Raise e => IO [Requested (upload_request o raw)] (Raise e)
    end.
Proof.
  intros Ht Hn. unfold import_blueprint. rewrite Ht, lift_bind, Hn.
  rewrite try_except_lift_Ok, lift_bind. fold (upload_request o raw).
  unfold try_except, get_info. cbn [outcome trace].
  destruct (respond w (upload_request o raw)) as [answer|e].
  - unfold mbind at 1, io_bind at 1. cbn [outcome trace].
    unfold mbind, io_bind. rewrite outcome_message_eq.
    destruct (first_message answer) as [[]|[]]; reflexivity.
  - destruct e; reflexivity.
Qed.

(** X14.  An answer that cannot be read as JSON to the upload of a
    blueprint is reported: the line "No processable JSON response
    available." is printed after the request and the run exits. *)
Theorem unreadable_answer_exits (w : world) (o : options) (st : resolution)
    (blueprint : string) (raw : raw_json) (n : json) :
  transform (project o) (project_uuid st) (dict_variables o)
    (read w blueprint) = Ok raw →
  blueprint_name raw = Ok n →
  respond w (upload_request o raw) = Raise JSONDecodeError →
  import_blueprint w o st blueprint
  = IO [Requested (upload_request o raw);
        Printed (blueprint ++ ": No processable JSON response available.")]
       (Raise SystemExit).
Proof.
  intros Ht Hn Hr.
  by rewrite (import_blueprint_posted w o st blueprint raw n Ht Hn), Hr.
Qed.

Lemma unreadable_answer_exits_witness :
  import_blueprint
    {| glob := λ _, ["bp/a.json"];
       read := λ _, Dumped (JObj plain_fields);
       respond := λ _, Raise JSONDecodeError;
       difference := λ _, "1.0" |}
    (sample_options "P")
    {| project_found := Some true; project_uuid := Some (JStr "U1") |}
    "bp/a.json"
  = IO [Requested (upload_request (sample_options "P") plain_transformed);
        Printed ("bp/a.json" ++ ": No processable JSON response available.")]
       (Raise SystemExit).
Proof.
  apply (unreadable_answer_exits _ (sample_options "P") _ "bp/a.json"
           plain_transformed (JStr "web"));
    [vm_compute; reflexivity|vm_compute; reflexivity|reflexivity].
Defined.

(** X15.  The outcome line of a file is always the first message of the
    answer: the line "Successfully imported" of line 227 is never built,
    because an answer without a first message makes line 227 raise
    [TypeError]. *)
Theorem success_line_never_built (w : world) (blueprint : string)
    (answer : json) :
  (∀ line, outcome (outcome_message w blueprint answer) = Ok line ↔
           ∃ msg, first_message answer = Ok (JStr msg)
                  ∧ line = blueprint ++ " : " ++ msg ++ ".")
  ∧ (first_message answer = Raise KeyError →
     outcome_message w blueprint answer = IO [] (Raise TypeError)).
Proof.
  rewrite outcome_message_eq. split.
  - intros line. split.
    + destruct (first_message answer) as [[]|[]]; try done.
      cbn [outcome]. intros [= <-]. eexists. split; [done|].
      by rewrite append_assoc.
    + intros (msg & -> & ->). cbn [outcome]. by rewrite append_assoc.
  - by intros ->.
Qed.

(** X16.  When every file transforms to a text with a blueprint name and
    every upload is answered with a first message, the loop posts the
    files in the order they were listed and prints the outcome line of
    each file right after its upload, before the next file is posted. *)
Theorem loop_reports_in_order (w : world) (o : options) (st : resolution)
    (files : list string) (raw : string → raw_json) (msg : string → string) :
  Forall (λ f,
    transform (project o) (project_uuid st) (dict_variables o) (read w f)
    = Ok (raw f)
    ∧ (∃ n, blueprint_name (raw f) = Ok n)
    ∧ ∃ answer, respond w (upload_request o (raw f)) = Ok answer
                ∧ first_message answer = Ok (JStr (msg f))) files →
  for_each files (import_blueprint w o st)
  = IO (flat_map (reported o raw msg) files) (Ok tt).
Proof.
  induction 1 as [|f files (Ht & (n & Hn) & answer & Hr & Hm) _ IH]; [done|].
  cbn [for_each flat_map].
  rewrite (import_blueprint_posted w o st f (raw f) n Ht Hn), Hr, Hm, IH.
  unfold mbind, io_bind, reported. cbn [outcome trace app].
  by rewrite append_assoc.
Qed.


Lemma pop_if_present_arr (k : string) (l : list json) :
  pop_if_present k (JArr l)
  = if existsb (λ x, eq_str x k) l then Raise TypeError else Ok (JArr l).
Proof.
  unfold pop_if_present. cbn [contains mbind result_bind].
  by destruct (existsb _ l).
Qed.

(** X18.  A file that holds a JSON array is never posted: its import
    raises [TypeError] with nothing printed, with or without a project. *)
Theorem array_file_raises (w : world) (o : options) (st : resolution)
    (blueprint : string) (l : list json) :
  read w blueprint = Dumped (JArr l) →
  import_blueprint w o st blueprint = IO [] (Raise TypeError).
Proof.
  intros Hread. unfold import_blueprint, transform. rewrite Hread.
  case_bool_decide.
  - unfold add_project, bind_project, at_key. cbn [loads mbind result_bind getitem].
    by rewrite lift_bind.
  - cbn [mbind result_bind]. unfold remove_export_keys.
    cbn [loads mbind result_bind]. rewrite pop_if_present_arr.
    destruct (existsb _ l); cbn [mbind result_bind]; [by rewrite lift_bind|].
    rewrite pop_if_present_arr.
    destruct (existsb _ l); cbn [mbind result_bind]; [by rewrite lift_bind|].
    rewrite lift_bind.
    by rewrite (try_except_other (lift (blueprint_name _)) _
                  JSONDecodeError TypeError).
Qed.

Lemma loop_reports_in_order_witness :
  for_each ["bp/a.json"; "bp/b.json"]
    (import_blueprint
       (answering_world ["bp/a.json"; "bp/b.json"] "Name already in use")
       (sample_options "P")
       {| project_found := Some true; project_uuid := Some (JStr "U1") |})
  = IO (flat_map
          (reported (sample_options "P")
             (λ f, if bool_decide (f = "bp/b.json") then era_bound
                   else plain_transformed)
             (λ _, "Name already in use"))
          ["bp/a.json"; "bp/b.json"])
       (Ok tt).
Proof.
  apply (loop_reports_in_order
           (answering_world ["bp/a.json"; "bp/b.json"] "Name already in use")
           (sample_options "P")
           {| project_found := Some true; project_uuid := Some (JStr "U1") |}
           ["bp/a.json"; "bp/b.json"]).
  constructor; [|constructor; [|constructor]].
  - split; [vm_compute; reflexivity|]. split.
    + exists (JStr "web"). vm_compute. reflexivity.
    + eexists. split; vm_compute; reflexivity.
  - split; [vm_compute; reflexivity|]. split.
    + exists (JStr "bp1"). vm_compute. reflexivity.
    + eexists. split; vm_compute; reflexivity.
Defined.


Lemma array_file_raises_witness :
  import_blueprint
    (sample_world ["bp/a.json"] (Dumped (JArr [JInt 1; JStr "status"])) [])
    (sample_options "none")
    {| project_found := None; project_uuid := None |} "bp/a.json"
  = IO [] (Raise TypeError).
Proof.
  apply (array_file_raises _ _ _ _ [JInt 1; JStr "status"]). reflexivity.
Defined.
